(** * UT803 frame decoder: a shallow embedding of [ut803.py]

    The file embeds the decoding half of the readout library
    ([chrToInt], the tables of class [UT803], [UT803.getUnit],
    [UT803.getExponentOffsetForUnit], [UT803.read]) and
    [prettyValueFormat], and proves the properties listed at the end.

    Conventions.
    - A Python [str] obtained from [bytes.decode("ascii")] is a Rocq
      [string]; one character is an [ascii].
    - A Python [int] is a [Z].
    - A Python [float] is an IEEE-754 binary64 number, modelled by the
      standard library's [spec_float] at precision 53 and [emax] 1024,
      with round-to-nearest-even operations.
    - A raised exception is a value of [exn]; a computation that may
      raise has type [res A]. *)

From Stdlib Require Import ZArith List String Ascii Bool Lia.
From Stdlib Require Import Floats.SpecFloat.
From Stdlib Require Floats.PrimFloat Floats.FloatOps.
Import ListNotations.

Local Open Scope string_scope.
Local Open Scope Z_scope.

(** ** Exceptions and results *)

Inductive exn : Type :=
| TypeError (msg : string)        (* raised by [chrToInt] *)
| KeyError (key : Z)              (* a missing key of an int-keyed dict *)
| ValueError (literal : string)   (* [int()] on an invalid literal *)
| IndexError                      (* an index out of range *)
| UnicodeDecodeError.             (* [decode("ascii")] on a byte >= 128 *)

Inductive res (A : Type) : Type :=
| Ok (a : A)
| Raise (e : exn).

Arguments Ok {A} a.
Arguments Raise {A} e.

Definition bind {A B : Type} (c : res A) (k : A -> res B) : res B :=
  match c with
  | Ok a => k a
  | Raise e => Raise e
  end.

Notation "x <- c ;; k" := (bind c (fun x => k))
  (at level 61, c at next level, right associativity).

Fixpoint mapM {A B : Type} (f : A -> res B) (l : list A) : res (list B) :=
  match l with
  | [] => Ok []
  | a :: l' => b <- f a ;; bs <- mapM f l' ;; Ok (b :: bs)
  end.

(** ** Python containers *)

(** [d[k]] on a dict literal with integer keys given in source order. *)
Fixpoint dict_find {V : Type} (d : list (Z * V)) (k : Z) : option V :=
  match d with
  | [] => None
  | (k', v) :: d' => if k =? k' then Some v else dict_find d' k
  end.

Definition dict_get {V : Type} (d : list (Z * V)) (k : Z) : res V :=
  match dict_find d k with
  | Some v => Ok v
  | None => Raise (KeyError k)
  end.

(** [k in d] *)
Definition dict_mem {V : Type} (d : list (Z * V)) (k : Z) : bool :=
  match dict_find d k with
  | Some _ => true
  | None => false
  end.

(** [d[k]] on a dict literal with string keys. *)
Fixpoint sdict_find {V : Type} (d : list (string * V)) (k : string) : option V :=
  match d with
  | [] => None
  | (k', v) :: d' => if String.eqb k k' then Some v else sdict_find d' k
  end.

(** [l[i]] on a list. *)
Definition list_index {A : Type} (l : list A) (i : nat) : res A :=
  match nth_error l i with
  | Some a => Ok a
  | None => Raise IndexError
  end.

(** [s[i]] on a string. *)
Definition str_index (s : string) (i : nat) : res ascii :=
  match String.get i s with
  | Some c => Ok c
  | None => Raise IndexError
  end.

(** [s[a:b]] for [0 <= a <= b]; a slice never raises. *)
Definition str_slice (s : string) (a b : nat) : string :=
  substring a (b - a) s.

(** Truth value of an [int]. *)
Definition truthy (z : Z) : bool := negb (z =? 0).

Definition ord (c : ascii) : Z := Z.of_nat (nat_of_ascii c).

(** ** [chrToInt] *)

Definition chrToInt (c : ascii) : res Z :=
  let num := ord c - 48 in
  if (0 <=? num) && (num <=? 15) then Ok num
  else Raise (TypeError "Invalid numeric character").

(** ** [int(s)] on an ASCII string

    CPython's [PyLong_FromString] in base 10: optional white space, one
    optional sign, decimal digits with single underscores allowed between
    two digits, optional white space, end of string. *)

Definition is_space (c : ascii) : bool :=
  let n := ord c in ((9 <=? n) && (n <=? 13)) || (n =? 32).

Definition is_digit (c : ascii) : bool :=
  let n := ord c in (48 <=? n) && (n <=? 57).

Fixpoint skip_spaces (s : list ascii) : list ascii :=
  match s with
  | c :: s' => if is_space c then skip_spaces s' else s
  | [] => []
  end.

(** Scans the digits after the first one; [prev_us] tells whether the
    previous character was an underscore. Returns the number read and the
    rest of the input, or [None] on a doubled or trailing underscore. *)
Fixpoint scan_digits (prev_us : bool) (acc : Z) (s : list ascii)
  : option (Z * list ascii) :=
  match s with
  | c :: s' =>
      if is_digit c then scan_digits false (10 * acc + (ord c - 48)) s'
      else if Ascii.eqb c "_"%char then
             if prev_us then None else scan_digits true acc s'
           else if prev_us then None else Some (acc, s)
  | [] => if prev_us then None else Some (acc, [])
  end.

Definition parse_int (s : list ascii) : option Z :=
  let s1 := skip_spaces s in
  let '(negative, s2) :=
    match s1 with
    | c :: r => if Ascii.eqb c "-"%char then (true, r)
                else if Ascii.eqb c "+"%char then (false, r)
                else (false, s1)
    | [] => (false, s1)
    end in
  match s2 with
  | c :: r =>
      if is_digit c then
        match scan_digits false (ord c - 48) r with
        | Some (n, rest) =>
            match skip_spaces rest with
            | [] => Some (if negative then - n else n)
            | _ :: _ => None
            end
        | None => None
        end
      else None
  | [] => None
  end.

Definition py_int (s : string) : res Z :=
  match parse_int (list_ascii_of_string s) with
  | Some n => Ok n
  | None => Raise (ValueError s)
  end.

(** [bytes.decode("ascii")]: every byte must be below 128. *)
Definition decode_ascii (raw : string) : res string :=
  if forallb (fun c => ord c <? 128) (list_ascii_of_string raw)
  then Ok raw else Raise UnicodeDecodeError.

(** ** Python floats: IEEE-754 binary64 *)

Module F64.

Definition float : Type := spec_float.

Definition prec : Z := 53.
Definition emax : Z := 1024.

(** [float(z)] for an [int] in range: the nearest double. *)
Definition of_int (z : Z) : float := binary_normalize prec emax z 0 false.

Definition mul (x y : float) : float := SFmul prec emax x y.
Definition div (x y : float) : float := SFdiv prec emax x y.
Definition opp (x : float) : float := SFopp x.
Definition eqb (x y : float) : bool := SFeqb x y.
Definition ltb (x y : float) : bool := SFltb x y.

(** The double denoted by the decimal literal [m]e[e], that is the
    double nearest to [m * 10^e]. It is used for [|m| < 2^53] and
    [|e| <= 22] only, where [m] and [10^|e|] are doubles, so that one
    correctly rounded operation gives the nearest double. *)
Definition decimal (m e : Z) : float :=
  if 0 <=? e then of_int (m * 10 ^ e)
  else div (of_int m) (of_int (10 ^ (- e))).

(** [10 ** e] as the right operand of a float multiplication. For
    [0 <= e] Python computes the [int] [10^e], which the multiplication
    converts to a float. For [e < 0] Python computes the float
    [pow(10.0, e)] with the C library; it is taken here as the double
    nearest to [10^e], which is what the C library returns for the
    exponents [-12 .. -1] that [read] can reach. *)
Definition pow10 (e : Z) : float :=
  if 0 <=? e then of_int (10 ^ e) else decimal 1 e.

End F64.

(** ** Class [UT803] *)

Module UT803.

Definition measurement_type_table : list (Z * string) :=
  [ (1, "diode");
    (2, "frequency");
    (3, "resistance");
    (4, "temperature");
    (5, "continuity");
    (6, "capacitance");
    (9, "current");
    (11, "voltage");
    (13, "current");
    (14, "hFE");
    (15, "current") ].

Definition static_units : list (Z * string) :=
  [ (1, "V");
    (2, "Hz");
    (3, "Ohm");
    (5, "Ohm");
    (6, "F");
    (9, "A");
    (11, "V");
    (13, "uA");
    (14, "");
    (15, "mA") ].

Definition getUnit (measurement : Z) (flags : list Z) : res string :=
  if dict_mem static_units measurement then
    dict_get static_units measurement
  else if measurement =? 4 then
    f0 <- list_index flags 0 ;;
    Ok (if truthy (Z.land f0 8) then "°C" else "°F")
  else Ok "???".

Definition exponent_offsets : list (string * Z) :=
  [ ("V", -3);
    ("Ohm", -1);
    ("A", -2);
    ("mA", -2);
    ("uA", -1);
    ("F", -3 - 9) ].

Definition getExponentOffsetForUnit (unit : string) : Z :=
  match sdict_find exponent_offsets unit with
  | Some off => off
  | None => 0
  end.

(** The local variables of [read] when it reaches its [return]. *)
Record locals : Type := {
  l_measurement : Z;                    (* [chrToInt(line[5])] *)
  l_meas_type : string;
  l_flags : list Z;
  l_unit : string;
  l_selector : Z;                       (* [chrToInt(line[0])] *)
  l_exponent : Z;                       (* [exponent] at line 103 *)
  l_base_value : Z;
  l_value : F64.float;
  l_flags_dict : list (string * bool)
}.

(** Lines 98 to 101: the exponent from the selector nibble and the unit. *)
Definition exponent_of (unit : string) (selector : Z) : Z :=
  let exponent := selector in
  let exponent :=
    if (String.eqb unit "V") && truthy (Z.land exponent 4)
    then exponent - 2 else exponent in
  exponent + getExponentOffsetForUnit unit.

(** Lines 103 to 105. *)
Definition value_of (base_value exponent sign : Z) : F64.float :=
  let value := F64.mul (F64.of_int base_value) (F64.pow10 exponent) in
  if truthy sign then F64.mul value (F64.of_int (-1)) else value.

(** The body of [read] from line 79 on, for a line of any length. *)
Definition read_frame (line : string) : res locals :=
  c5 <- str_index line 5 ;;
  measurement <- chrToInt c5 ;;
  meas_type <- dict_get measurement_type_table measurement ;;
  flags <- mapM chrToInt (list_ascii_of_string (str_slice line 6 9)) ;;
  f0 <- list_index flags 0 ;;
  let overload := Z.land f0 1 in
  let sign := Z.land f0 4 in
  let not_farenheit := Z.land f0 8 in
  f1 <- list_index flags 1 ;;
  let minimum := Z.land f1 2 in
  let maximum := Z.land f1 4 in
  let hold := Z.land f1 8 in
  f2 <- list_index flags 2 ;;
  let autorange := Z.land f2 2 in
  let ac := Z.land f2 4 in
  let dc := Z.land f2 8 in
  unit <- getUnit measurement flags ;;
  c0 <- str_index line 0 ;;
  selector <- chrToInt c0 ;;
  let exponent := exponent_of unit selector in
  base_value <- py_int (str_slice line 1 5) ;;
  let value := value_of base_value exponent sign in
  let flags_dict :=
    [ ("overload", overload >? 0);
      ("sign", sign >? 0);
      ("not_farenheit", not_farenheit >? 0);
      ("min", minimum >? 0);
      ("max", maximum >? 0);
      ("hold", hold >? 0);
      ("autorange", autorange >? 0);
      ("ac", ac >? 0);
      ("dc", dc >? 0) ] in
  Ok {| l_measurement := measurement; l_meas_type := meas_type;
        l_flags := flags; l_unit := unit; l_selector := selector;
        l_exponent := exponent; l_base_value := base_value;
        l_value := value; l_flags_dict := flags_dict |}.

(** What [read] returns: [None] is Python's [None]. *)
Definition reading : Type :=
  (F64.float * string * string * list (string * bool))%type.

(** [read]; [conn] is [None] for a closed connection and [Some raw] for
    an open one whose [readline()] gives the bytes [raw]. *)
Definition read (conn : option string) : res (option reading) :=
  match conn with
  | None => Ok None
  | Some raw =>
      line <- decode_ascii raw ;;
      if (String.eqb line "") || negb (Nat.eqb (String.length line) 11)
      then Ok None
      else
        L <- read_frame line ;;
        Ok (Some (l_value L, l_unit L, l_meas_type L, l_flags_dict L))
  end.

End UT803.

(** ** [prettyValueFormat] *)

Definition prettyValueFormat (value : F64.float) (unit : string)
  : F64.float * string :=
  if F64.eqb value (F64.decimal 0 0) then (value, unit)
  else if F64.ltb value (F64.decimal 1 (-9)) then
    (F64.mul value (F64.decimal 1 12), "p" ++ unit)
  else if F64.ltb value (F64.decimal 1 (-6)) then
    (F64.mul value (F64.decimal 1 9), "n" ++ unit)
  else if F64.ltb value (F64.decimal 1 (-3)) then
    (F64.mul value (F64.decimal 1 6), "u" ++ unit)
  else if F64.ltb value (F64.of_int 1) then
    (F64.mul value (F64.decimal 1 3), "m" ++ unit)
  else if F64.ltb value (F64.decimal 1 3) then (value, unit)
  else if F64.ltb value (F64.decimal 1 6) then
    (F64.mul value (F64.decimal 1 (-3)), "k" ++ unit)
  else (F64.mul value (F64.decimal 1 (-6)), "M" ++ unit).

(** ** Sample frames

    A frame is nine payload characters followed by carriage return and
    line feed. *)

Definition CRLF : string :=
  String (ascii_of_nat 13) (String (ascii_of_nat 10) "").

(** Voltage, selector 4, magnitude 1234, no flag. *)
Definition frame_voltage : string := "41234;000" ++ CRLF.
(** Capacitance, selector 0, magnitude 5000, no flag. *)
Definition frame_capacitance : string := "050006000" ++ CRLF.
(** Diode, selector 4, magnitude 1234, no flag. *)
Definition frame_diode : string := "412341000" ++ CRLF.
(** Temperature with bit 3 of the first flag nibble set. *)
Definition frame_celsius : string := "012344800" ++ CRLF.
(** Voltage with the sign flag set. *)
Definition frame_negative : string := "41234;400" ++ CRLF.
(** The kind nibble 7 is not in the table. *)
Definition frame_kind_7 : string := "412347000" ++ CRLF.
(** [frame_voltage] with a letter at position 0, and at position 6. *)
Definition frame_bad_selector : string := "x1234;000" ++ CRLF.
Definition frame_bad_flag : string := "41234;x00" ++ CRLF.
(** [frame_voltage] with a space, a minus sign and a letter at position 1. *)
Definition frame_space : string := "4 123;000" ++ CRLF.
Definition frame_minus : string := "4-123;000" ++ CRLF.
Definition frame_letter : string := "4a234;000" ++ CRLF.

(** The [flags_dict] of a frame whose three flag nibbles are 0. *)
Definition flags_all_clear : list (string * bool) :=
  [ ("overload", false); ("sign", false); ("not_farenheit", false);
    ("min", false); ("max", false); ("hold", false);
    ("autorange", false); ("ac", false); ("dc", false) ].

(** ** Auxiliary definitions for the proofs *)

(** A normal double: 53 significant bits and an exponent between [lo]
    and [hi]. *)
Definition normal_in (lo hi : Z) (x : F64.float) : bool :=
  match x with
  | S754_finite _ m e =>
      Pos.eqb (digits2_pos m) 53 && (lo <=? e) && (e <=? hi)
  | _ => false
  end.

(** [P] holds on the [n] integers from [lo] on. *)
Fixpoint all_from (n : nat) (lo : Z) (P : Z -> bool) : bool :=
  match n with
  | O => true
  | S k => P lo && all_from k (lo + 1) P
  end.

(** ** Further definitions *)

(** The valid characters, as the docstring of [chrToInt] lists them. *)
Definition nibble_alphabet : string := "0123456789:;<=>?".

(** The kind codes that [getUnit] knows: the keys of its table and the
    temperature code. *)
Definition unit_codes : list Z := [1; 2; 3; 4; 5; 6; 9; 11; 13; 14; 15].

(** The test of [chrToInt] on a character. *)
Definition nibble_char (c : ascii) : bool :=
  let num := ord c - 48 in (0 <=? num) && (num <=? 15).

(** The lines for which [read] returns a reading: eleven ASCII characters,
    nibble characters at positions 0, 5, 6, 7 and 8, a kind nibble that is
    a key of [measurement_type_table], and four characters at positions 1
    to 4 that [int()] accepts. The characters at positions 9 and 10 are
    free. *)
Definition frame_ok (raw : string) : bool :=
  forallb (fun c => ord c <? 128) (list_ascii_of_string raw) &&
  match list_ascii_of_string raw with
  | [c0; d1; d2; d3; d4; c5; c6; c7; c8; _; _] =>
      nibble_char c5 &&
      dict_mem UT803.measurement_type_table (ord c5 - 48) &&
      nibble_char c6 && nibble_char c7 && nibble_char c8 &&
      nibble_char c0 &&
      match parse_int [d1; d2; d3; d4] with
      | Some _ => true
      | None => false
      end
  | _ => false
  end.

(** The lines in which nothing but the characters at positions 1 to 4
    can stop [read]: [frame_ok] without the test of [int()]. *)
Definition frame_ok_elsewhere (raw : string) : bool :=
  forallb (fun c => ord c <? 128) (list_ascii_of_string raw) &&
  match list_ascii_of_string raw with
  | [c0; _; _; _; _; c5; c6; c7; c8; _; _] =>
      nibble_char c5 &&
      dict_mem UT803.measurement_type_table (ord c5 - 48) &&
      nibble_char c6 && nibble_char c7 && nibble_char c8 &&
      nibble_char c0
  | _ => false
  end.

(** The bits behind the nine flags. *)
Definition flag_bits (f0 f1 f2 : Z) : list (string * bool) :=
  [ ("overload", Z.testbit f0 0);
    ("sign", Z.testbit f0 2);
    ("not_farenheit", Z.testbit f0 3);
    ("min", Z.testbit f1 1);
    ("max", Z.testbit f1 2);
    ("hold", Z.testbit f1 3);
    ("autorange", Z.testbit f2 1);
    ("ac", Z.testbit f2 2);
    ("dc", Z.testbit f2 3) ].


(** [x <= y] on floats. *)
Definition f64_leb (x y : F64.float) : bool := SFleb x y.

(** A normal double with the sign bit [s]. *)
Definition signed_normal (s : bool) (x : F64.float) : bool :=
  match x with
  | S754_finite s' m e =>
      Bool.eqb s' s && Pos.eqb (digits2_pos m) 53
      && (-1074 <=? e) && (e <=? 971)
  | _ => false
  end.

(** ** The object: [close] and [read] on a connection

    The serial port is represented by the lines that its [readline()]
    calls are going to return; [conn] is [None] once the object is
    closed. *)

Module Device.

Record t : Type := { conn : option (list string) }.

(** What is done to the serial port. *)
Inductive port_action : Type :=
| PortClose.

(** [UT803.close]: the port is closed if there is one, and [conn] is set
    to [None]. *)
Definition close (d : t) : t * list port_action :=
  match conn d with
  | Some _ => ({| conn := None |}, [PortClose])
  | None => ({| conn := None |}, [])
  end.

(** [UT803.read] on the object: one [readline()] is consumed when the
    connection is open; a port with nothing to deliver times out and
    [readline()] returns the empty line. *)
Definition read (d : t) : res (option UT803.reading) * t :=
  match conn d with
  | None => (UT803.read None, d)
  | Some [] => (UT803.read (Some ""), d)
  | Some (raw :: rest) => (UT803.read (Some raw), {| conn := Some rest |})
  end.

End Device.

(** ** [interactive]: the recording loop

    The loop is modelled on the sequence of what it receives: for each
    iteration the line that [readline()] returns and the two values that
    [time.time()] would give, at line 207 and at line 218. What it writes
    is a list of events; an event carries the arguments of the [format]
    call, not the formatted text. The numbers [t] and [last_time] are
    floats: the integers 0 and -10 that the loop assigns to them are the
    floats 0.0 and -10.0, which subtract, compare and print alike.

    The loop ends with the exception that an iteration raises, or when
    the outside world stops it, which can happen at any point of an
    iteration: a [KeyboardInterrupt], which the loop catches, or an
    operation on the port, the file or the terminal that raises (a
    [readline], a [write], a [flush], a [sleep] that the system refuses),
    which escapes. What was written by then is a prefix of what the full
    run writes. The world of a run ([world]) says where it is stopped and
    whether closing the output file or the port fails. An interrupt that
    arrives inside the [finally] clause is not modelled. *)

Definition f64_sub (x y : F64.float) : F64.float :=
  SFsub F64.prec F64.emax x y.

Module Interactive.

Local Open Scope list_scope.

(** The command line arguments that the loop uses. *)
Record args : Type := {
  monitor : bool;              (* [--monitor] *)
  delay : option Z;            (* [--delay], [None] when absent *)
  to_stdout : bool             (* [args.output == "-"] *)
}.

Record tick : Type := {
  raw : string;                (* what [readline()] returns *)
  now : F64.float;             (* [time.time()] at line 207 *)
  now_header : F64.float       (* [time.time()] at line 218 *)
}.

Record state : Type := {
  current_measurement : string;
  initial_time : F64.float;
  last_time : F64.float
}.

Definition initial : state :=
  {| current_measurement := "";
     initial_time := F64.decimal 0 0;
     last_time := F64.decimal 0 0 |}.

(** What is written to the output file [f]. *)
Inductive file_text : Type :=
| Newline
| Header (active : list string) (measure unit : string)
| Sample (t value : F64.float) (overload : bool).

Inductive event : Type :=
| FileWrite (text : file_text)
| FileFlush
| MonitorWrite (measure : string) (pval : F64.float) (punit : string)
               (active : list string)
| Sleep (seconds : Z)
| FileClose
| ConnClose.

Inductive loop_exn : Type :=
| ReadError (e : exn)          (* raised by [conn.read()] *)
| FlagKeyError (key : string)  (* [flags["overload"]] on a missing key *)
| SleepValueError              (* [time.sleep] on a negative number *)
| SleepOverflowError           (* [time.sleep] on a number of seconds that
                                  does not fit 64-bit nanoseconds *)
| EnvironmentFailure.          (* an operation on the port, the file or
                                  the terminal raised *)

(** The largest number of seconds that [time.sleep] converts to a 64-bit
    number of nanoseconds; beyond it, on either side, the conversion
    raises [OverflowError] before the sign is looked at. *)
Definition max_sleep_seconds : Z := 9223372036.

(** The names of the flags that are set, in the order of the dict. *)
Definition active_flags (flags : list (string * bool)) : list string :=
  map fst (filter snd flags).

(** Lines 226 to 234, after a sample was written. *)
Definition after_sample (a : args) (value : F64.float)
  (unit measure : string) (flags : list (string * bool))
  : list event * option loop_exn :=
  let mon :=
    if monitor a then
      let '(pval, punit) := prettyValueFormat value unit in
      [MonitorWrite measure pval punit (active_flags flags)]
    else [] in
  match delay a with
  | Some d =>
      if truthy d then
        if (d <? - max_sleep_seconds) || (max_sleep_seconds <? d)
        then (mon, Some SleepOverflowError)
        else if d <? 0 then (mon, Some SleepValueError)
        else (mon ++ [Sleep d], None)
      else (mon, None)
  | None => (mon, None)
  end.

(** One iteration of the [while] loop: the events written, and the next
    state or the exception that ends the loop. *)
Definition iteration (a : args) (st : state) (tk : tick)
  : list event * (state + loop_exn) :=
  match UT803.read (Some (raw tk)) with
  | Raise e => ([], inr (ReadError e))
  | Ok None => ([], inl st)
  | Ok (Some (value, unit, measure, flags)) =>
      let t := f64_sub (now tk) (initial_time st) in
      let '(out1, st1, t) :=
        if negb (String.eqb measure (current_measurement st)) then
          ((if negb (String.eqb (current_measurement st) "")
            then [FileWrite Newline] else [])
           ++ [FileWrite (Header (active_flags flags) measure unit)],
           {| current_measurement := measure;
              initial_time := now_header tk;
              last_time := F64.of_int (-10) |},
           F64.of_int 0)
        else ([], st, t) in
      if F64.ltb (f64_sub t (last_time st1)) (F64.decimal 5 (-2))
      then (out1, inl st1)
      else
        let st2 := {| current_measurement := current_measurement st1;
                      initial_time := initial_time st1;
                      last_time := t |} in
        match sdict_find flags "overload" with
        | None => (out1, inr (FlagKeyError "overload"))
        | Some overload =>
            let out2 := out1 ++ [FileWrite (Sample t value overload);
                                 FileFlush] in
            match after_sample a value unit measure flags with
            | (out3, Some e) => (out2 ++ out3, inr e)
            | (out3, None) => (out2 ++ out3, inl st2)
            end
        end
  end.

(** The loop on the lines that arrive, when nothing stops it before the
    last of them is processed. *)
Fixpoint run (a : args) (st : state) (ticks : list tick)
  : list event * state * option loop_exn :=
  match ticks with
  | [] => ([], st, None)
  | tk :: rest =>
      match iteration a st tk with
      | (out, inr e) => (out, st, Some e)
      | (out, inl st') =>
          let '(out', st'', err) := run a st' rest in
          (out ++ out', st'', err)
      end
  end.

(** Where the world stops the loop. *)
Inductive cut : Type :=
| NoCut                     (* the interrupt comes after the last line *)
| InterruptAfter (n : nat)  (* [KeyboardInterrupt] after [n] events *)
| FailureAfter (n : nat).   (* the operation after [n] events raises *)

Record world : Type := {
  stop : cut;
  close_fails : bool;          (* [f.close()] raises *)
  port_close_fails : bool      (* [conn.close()] raises *)
}.

(** Nothing fails and the interrupt comes after the last line. *)
Definition calm : world :=
  {| stop := NoCut; close_fails := false; port_close_fails := false |}.

(** The loop stopped by the world: [out] and [err] are the events and
    the exception of the full run. An interrupt leaves no exception; a
    failing operation leaves [EnvironmentFailure] and no event. After the
    last event of the run there is still the [readline] of the lines that
    write nothing, so the loop can also be stopped there, before the
    exception of the run, if it has one; a stop that would come later
    does not take place. *)
Definition apply_cut (c : cut) (out : list event) (err : option loop_exn)
  : list event * option loop_exn :=
  match c with
  | NoCut => (out, err)
  | InterruptAfter n =>
      if Nat.leb n (List.length out) then (firstn n out, None) else (out, err)
  | FailureAfter n =>
      if Nat.leb n (List.length out)
      then (firstn n out, Some EnvironmentFailure)
      else (out, err)
  end.

(** What the loop wrote before the [finally] clause, and how it ended. *)
Definition loop (a : args) (ticks : list tick) (w : world)
  : list event * option loop_exn :=
  let '(out, _, err) := run a initial ticks in
  apply_cut (stop w) out err.

(** [interactive] from the [try] on: the loop, then the [finally] clause.
    The result is what was written and the exception that escapes, if
    any. An exception raised in the [finally] clause replaces the one of
    the loop; when [f.close()] raises, [conn.close()] is not reached. *)
Definition interactive (a : args) (ticks : list tick) (w : world)
  : list event * option loop_exn :=
  let '(body, err) := loop a ticks w in
  let closed_file := if to_stdout a then [] else [FileClose] in
  if negb (to_stdout a) && close_fails w
  then (body, Some EnvironmentFailure)
  else if port_close_fails w
  then (body ++ closed_file, Some EnvironmentFailure)
  else (body ++ closed_file ++ [ConnClose], err).

(** The samples of a trace are well spaced from [last] on: no sample
    comes less than 0.05 s after the sample before it in the same block;
    a header starts a new block. *)
Fixpoint spaced (last : F64.float) (evs : list event) : Prop :=
  match evs with
  | [] => True
  | FileWrite (Header _ _ _) :: evs' => spaced (F64.of_int (-10)) evs'
  | FileWrite (Sample t _ _) :: evs' =>
      F64.ltb (f64_sub t last) (F64.decimal 5 (-2)) = false /\ spaced t evs'
  | _ :: evs' => spaced last evs'
  end.

(** The kinds of the headers of a trace, in order. *)
Fixpoint header_kinds (evs : list event) : list string :=
  match evs with
  | [] => []
  | FileWrite (Header _ measure _) :: evs' => measure :: header_kinds evs'
  | _ :: evs' => header_kinds evs'
  end.

(** What the loop wrote before the [finally] clause. *)
Definition written (a : args) (ticks : list tick) (w : world)
  : list event :=
  fst (loop a ticks w).

(** Each header is directly followed by a sample taken at time 0, unless
    the trace ends with the header. *)
Fixpoint headers_start_at_zero (evs : list event) : Prop :=
  match evs with
  | [] => True
  | FileWrite (Header _ _ _) :: evs' =>
      match evs' with
      | [] => True
      | FileWrite (Sample t _ _) :: _ => t = F64.of_int 0
      | _ => False
      end /\ headers_start_at_zero evs'
  | _ :: evs' => headers_start_at_zero evs'
  end.

(** The shapes of one iteration. *)
Inductive iteration_shape (a : args) (st : state) (tk : tick)
  : list event * (state + loop_exn) -> Prop :=
| shape_raise (e : exn) :
    UT803.read (Some (raw tk)) = Raise e ->
    iteration_shape a st tk ([], inr (ReadError e))
| shape_none :
    UT803.read (Some (raw tk)) = Ok None ->
    iteration_shape a st tk ([], inl st)
| shape_debounced (v : F64.float) (u : string) (fd : list (string * bool)) :
    UT803.read (Some (raw tk))
    = Ok (Some (v, u, current_measurement st, fd)) ->
    F64.ltb (f64_sub (f64_sub (now tk) (initial_time st)) (last_time st))
            (F64.decimal 5 (-2)) = true ->
    iteration_shape a st tk ([], inl st)
| shape_sample (v : F64.float) (u : string) (fd : list (string * bool))
               (ov : bool) :
    UT803.read (Some (raw tk))
    = Ok (Some (v, u, current_measurement st, fd)) ->
    sdict_find fd "overload" = Some ov ->
    current_measurement st <> "" ->
    let t := f64_sub (now tk) (initial_time st) in
    F64.ltb (f64_sub t (last_time st)) (F64.decimal 5 (-2)) = false ->
    iteration_shape a st tk
      ([FileWrite (Sample t v ov); FileFlush]
       ++ fst (after_sample a v u (current_measurement st) fd),
       match snd (after_sample a v u (current_measurement st) fd) with
       | Some e => inr e
       | None => inl {| current_measurement := current_measurement st;
                        initial_time := initial_time st;
                        last_time := t |}
       end)
| shape_header (v : F64.float) (u k : string) (fd : list (string * bool))
               (ov : bool) :
    UT803.read (Some (raw tk)) = Ok (Some (v, u, k, fd)) ->
    sdict_find fd "overload" = Some ov ->
    k <> "" -> k <> current_measurement st ->
    iteration_shape a st tk
      ((if negb (String.eqb (current_measurement st) "")
        then [FileWrite Newline] else [])
       ++ [FileWrite (Header (active_flags fd) k u);
           FileWrite (Sample (F64.of_int 0) v ov); FileFlush]
       ++ fst (after_sample a v u k fd),
       match snd (after_sample a v u k fd) with
       | Some e => inr e
       | None => inl {| current_measurement := k;
                        initial_time := now_header tk;
                        last_time := F64.of_int 0 |}
       end).

End Interactive.

(** The events that are not written to the file and close nothing. *)
Definition is_quiet (e : Interactive.event) : bool :=
  match e with
  | Interactive.MonitorWrite _ _ _ _ => true
  | Interactive.Sleep _ => true
  | _ => false
  end.

(** No two neighbours of the list are equal. *)
Fixpoint adjacent_distinct (l : list string) : Prop :=
  match l with
  | a :: ((b :: _) as l') => a <> b /\ adjacent_distinct l'
  | _ => True
  end.

(** [p] is the beginning of [l]. *)
Definition is_prefix {A : Type} (p l : list A) : Prop :=
  exists n : nat, p = firstn n l.

(** ** Sample runs of the loop *)

(** No monitor, no delay, output to a file. *)
Definition plain_args : Interactive.args :=
  {| Interactive.monitor := false; Interactive.delay := None;
     Interactive.to_stdout := false |}.

(** The line [line] read at [seconds] seconds on the clock. *)
Definition tick_at (line : string) (seconds : Z) : Interactive.tick :=
  {| Interactive.raw := line; Interactive.now := F64.of_int seconds;
     Interactive.now_header := F64.of_int seconds |}.

(** * Properties *)

(** ** Helper lemmas *)

(** A mask with one bit set tests that bit. *)
Lemma truthy_land_pow2 (x k : Z) :
  0 <= k -> truthy (Z.land x (2 ^ k)) = Z.testbit x k.
Proof.
  intros Hk. unfold truthy.
  destruct (Z.testbit x k) eqn:E.
  - destruct (Z.eqb_spec (Z.land x (2 ^ k)) 0) as [H0|]; [|reflexivity].
    assert (Hb : Z.testbit (Z.land x (2 ^ k)) k = true)
      by (rewrite Z.land_spec, E, Z.pow2_bits_true by assumption; reflexivity).
    rewrite H0, Z.bits_0 in Hb. discriminate.
  - assert (H0 : Z.land x (2 ^ k) = 0).
    { apply Z.bits_inj_0. intros n. rewrite Z.land_spec.
      destruct (Z.eq_dec n k) as [->|Hn].
      - rewrite E. reflexivity.
      - destruct (Z.neg_nonneg_cases n) as [Hneg|Hpos].
        + rewrite (Z.testbit_neg_r x) by assumption. reflexivity.
        + rewrite Z.pow2_bits_false by (intro; subst; apply Hn; reflexivity).
          apply andb_false_r. }
    rewrite H0. reflexivity.
Qed.

Lemma truthy_land_4 (x : Z) : truthy (Z.land x 4) = Z.testbit x 2.
Proof. apply (truthy_land_pow2 x 2). lia. Qed.

Lemma truthy_land_8 (x : Z) : truthy (Z.land x 8) = Z.testbit x 3.
Proof. apply (truthy_land_pow2 x 3). lia. Qed.

(** [chrToInt] returns exactly the nibbles. *)
Lemma chrToInt_Ok (c : ascii) (n : Z) :
  chrToInt c = Ok n -> n = ord c - 48 /\ 0 <= n <= 15.
Proof.
  unfold chrToInt.
  destruct (0 <=? ord c - 48) eqn:Hlo; destruct (ord c - 48 <=? 15) eqn:Hhi;
    simpl; intros H; inversion H; subst; lia.
Qed.

Ltac bind_inv H :=
  match type of H with
  | bind ?c _ = Ok _ =>
      let E := fresh "E" in
      destruct c eqn:E; simpl in H; [|discriminate H]
  end.

(** What a successful run of [read_frame] went through. *)
Lemma read_frame_inv (line : string) (L : UT803.locals) :
  UT803.read_frame line = Ok L ->
  exists c5 c0 f0 f1 f2,
    str_index line 5 = Ok c5 /\
    chrToInt c5 = Ok (UT803.l_measurement L) /\
    dict_get UT803.measurement_type_table (UT803.l_measurement L)
      = Ok (UT803.l_meas_type L) /\
    mapM chrToInt (list_ascii_of_string (str_slice line 6 9))
      = Ok (UT803.l_flags L) /\
    list_index (UT803.l_flags L) 0 = Ok f0 /\
    list_index (UT803.l_flags L) 1 = Ok f1 /\
    list_index (UT803.l_flags L) 2 = Ok f2 /\
    UT803.getUnit (UT803.l_measurement L) (UT803.l_flags L)
      = Ok (UT803.l_unit L) /\
    str_index line 0 = Ok c0 /\
    chrToInt c0 = Ok (UT803.l_selector L) /\
    UT803.l_exponent L
      = UT803.exponent_of (UT803.l_unit L) (UT803.l_selector L) /\
    py_int (str_slice line 1 5) = Ok (UT803.l_base_value L) /\
    UT803.l_value L
      = UT803.value_of (UT803.l_base_value L) (UT803.l_exponent L)
          (Z.land f0 4).
Proof.
  unfold UT803.read_frame. intros H.
  do 11 bind_inv H.
  inversion H; subst; clear H; simpl.
  repeat eexists; eassumption || reflexivity.
Qed.

(** What a reading returned by [read] comes from. *)
Lemma read_inv (raw : string) (r : UT803.reading) :
  UT803.read (Some raw) = Ok (Some r) ->
  String.length raw = 11%nat /\
  exists L, UT803.read_frame raw = Ok L /\
    r = (UT803.l_value L, UT803.l_unit L, UT803.l_meas_type L,
         UT803.l_flags_dict L).
Proof.
  unfold UT803.read, decode_ascii.
  destruct (forallb _ _); simpl; [|discriminate].
  destruct (String.eqb raw ""); simpl; [discriminate|].
  destruct (Nat.eqb_spec (String.length raw) 11) as [Hlen|]; simpl;
    [|discriminate].
  intros H. bind_inv H. inversion H; subst. eauto.
Qed.

(** The keys of [measurement_type_table]. *)
Lemma measurement_type_table_keys (m : Z) (k : string) :
  dict_get UT803.measurement_type_table m = Ok k ->
  In m [1; 2; 3; 4; 5; 6; 9; 11; 13; 14; 15].
Proof.
  unfold dict_get, UT803.measurement_type_table, dict_find.
  repeat match goal with
         | |- context [?a =? ?b] =>
             destruct (Z.eqb_spec a b); [subst; simpl; tauto|]
         end.
  discriminate.
Qed.

(** ** Binary64 rounding

    The lemmas of this section are about [binary_round_aux] at precision
    53: they show that the products [read] computes are normal doubles and
    that multiplying such a double by -1.0 negates it. *)

(** [digits2_pos] is the bit length. *)
Lemma digits2_bounds (p : positive) :
  2 ^ (Zpos (digits2_pos p) - 1) <= Zpos p < 2 ^ Zpos (digits2_pos p).
Proof.
  induction p as [p IH|p IH|]; cbn [digits2_pos].
  - rewrite Pos2Z.inj_succ, (Pos2Z.inj_xI p).
    replace (Z.succ (Zpos (digits2_pos p)) - 1)
      with (Z.succ (Zpos (digits2_pos p) - 1)) by lia.
    rewrite !Z.pow_succ_r by lia.
    destruct IH as [IH1 IH2]. revert IH1 IH2.
    generalize (2 ^ (Zpos (digits2_pos p) - 1)) (2 ^ Zpos (digits2_pos p)).
    intros; lia.
  - rewrite Pos2Z.inj_succ, (Pos2Z.inj_xO p).
    replace (Z.succ (Zpos (digits2_pos p)) - 1)
      with (Z.succ (Zpos (digits2_pos p) - 1)) by lia.
    rewrite !Z.pow_succ_r by lia.
    destruct IH as [IH1 IH2]. revert IH1 IH2.
    generalize (2 ^ (Zpos (digits2_pos p) - 1)) (2 ^ Zpos (digits2_pos p)).
    intros; lia.
  - simpl. lia.
Qed.

Lemma digits2_unique (p : positive) (k : Z) :
  2 ^ (k - 1) <= Zpos p < 2 ^ k -> Zpos (digits2_pos p) = k.
Proof.
  intros [Hlo Hhi]. pose proof (digits2_bounds p) as [Dlo Dhi].
  set (d := Zpos (digits2_pos p)) in *.
  assert (0 < d) by (unfold d; lia).
  assert (0 < k).
  { destruct (Z.ltb_spec 0 k); [assumption|].
    rewrite (Z.pow_neg_r 2 (k - 1)) in Hlo by lia.
    assert (2 ^ k <= 1).
    { destruct (Z.eq_dec k 0) as [->|]; [simpl; lia|].
      rewrite Z.pow_neg_r by lia. lia. }
    lia. }
  destruct (Z.lt_trichotomy d k) as [Hlt|[Heq|Hgt]]; [|assumption|].
  - assert (2 ^ d <= 2 ^ (k - 1)) by (apply Z.pow_le_mono_r; lia). lia.
  - assert (2 ^ k <= 2 ^ (d - 1)) by (apply Z.pow_le_mono_r; lia). lia.
Qed.

(** Shifting the rounding record right divides the mantissa by 2. *)
Lemma shr_1_m (r : shr_record) :
  0 <= shr_m r -> shr_m (shr_1 r) = shr_m r / 2 /\ 0 <= shr_m (shr_1 r).
Proof.
  destruct r as [m r s]. simpl shr_m at 1 2. intros Hm.
  destruct m as [|[p|p|]|p]; simpl.
  - split; [reflexivity | lia].
  - split; [|lia]. rewrite (Pos2Z.inj_xI p).
    apply Z.div_unique with (r := 1); lia.
  - split; [|lia]. rewrite (Pos2Z.inj_xO p).
    apply Z.div_unique with (r := 0); lia.
  - split; [reflexivity | lia].
  - lia.
Qed.

Lemma iter_shr_m (n : positive) :
  forall r : shr_record,
    0 <= shr_m r ->
    shr_m (iter_pos shr_1 n r) = shr_m r / 2 ^ Zpos n /\
    0 <= shr_m (iter_pos shr_1 n r).
Proof.
  induction n as [n IH|n IH|]; intros r Hr; cbn [iter_pos].
  - destruct (shr_1_m r Hr) as [E1 P1].
    destruct (IH _ P1) as [E2 P2].
    destruct (IH _ P2) as [E3 P3].
    split; [|assumption].
    rewrite E3, E2, E1.
    assert (0 < 2 ^ Zpos n) by (apply Z.pow_pos_nonneg; lia).
    rewrite !Z.div_div by lia.
    f_equal. rewrite (Pos2Z.inj_xI n).
    rewrite Z.pow_add_r, Z.pow_mul_r by lia.
    change (2 ^ 2) with 4. rewrite Z.pow_1_r.
    replace 4 with (2 * 2) by reflexivity.
    rewrite Z.pow_mul_l. lia.
  - destruct (IH _ Hr) as [E2 P2].
    destruct (IH _ P2) as [E3 P3].
    split; [|assumption].
    rewrite E3, E2.
    assert (0 < 2 ^ Zpos n) by (apply Z.pow_pos_nonneg; lia).
    rewrite !Z.div_div by lia.
    f_equal. rewrite (Pos2Z.inj_xO n).
    rewrite Z.pow_mul_r by lia.
    change (2 ^ 2) with 4.
    replace 4 with (2 * 2) by reflexivity.
    rewrite Z.pow_mul_l. lia.
  - rewrite Z.pow_1_r. apply shr_1_m. assumption.
Qed.

Lemma round_nearest_even_bounds (m : Z) (l : location) :
  m <= round_nearest_even m l <= m + 1.
Proof.
  destruct l as [|[| |]]; simpl; try lia.
  destruct (Z.even m); lia.
Qed.

(** Shifting right what was shifted left gives the mantissa back, with no
    bit lost. *)
Lemma iter_shr_exact (n : positive) :
  forall p : positive,
    iter_pos shr_1 n
      {| shr_m := Zpos (Pos.iter xO p n); shr_r := false; shr_s := false |}
    = {| shr_m := Zpos p; shr_r := false; shr_s := false |}.
Proof.
  induction n as [n IH|n IH|]; intros p; cbn [iter_pos Pos.iter].
  - cbn [shr_1 orb]. rewrite IH, IH. reflexivity.
  - rewrite IH, IH. reflexivity.
  - reflexivity.
Qed.

(** A mantissa of 53 digits with an exponent in range is left as it is by
    the second rounding step. *)
Lemma shr_fexp_canonical (q : positive) (e : Z) :
  digits2_pos q = 53%positive -> -1074 <= e ->
  shr_fexp 53 1024 (Zpos q) e loc_Exact
  = ({| shr_m := Zpos q; shr_r := false; shr_s := false |}, e).
Proof.
  intros Hq He. unfold shr_fexp, fexp, emin. cbn [Zdigits2 shr_record_of_loc].
  rewrite Hq.
  replace (Z.max (53 + e - 53) (3 - 1024 - 53) - e) with 0 by lia.
  reflexivity.
Qed.

(** Rounding a mantissa of more than 53 bits, far from overflow and
    underflow, gives a mantissa of exactly 53 bits. *)
Lemma round_aux_normal (s : bool) (M : positive) (ex : Z) :
  let d := Zpos (digits2_pos M) in
  53 < d -> -1074 <= ex + d - 53 -> ex + d - 52 <= 971 ->
  exists m e,
    binary_round_aux 53 1024 s (Zpos M) ex loc_Exact = S754_finite s m e /\
    digits2_pos m = 53%positive /\
    ex + d - 53 <= e <= ex + d - 52.
Proof.
  intros d Hd Hlo Hhi.
  set (r0 := {| shr_m := Zpos M; shr_r := false; shr_s := false |}).
  set (n := Z.to_pos (d - 53)).
  assert (Hn : Zpos n = d - 53) by (unfold n; rewrite Z2Pos.id; lia).
  assert (Hs1 : shr_fexp 53 1024 (Zpos M) ex loc_Exact
                = (iter_pos shr_1 n r0, ex + (d - 53))).
  { unfold shr_fexp, fexp, emin. cbn [Zdigits2 shr_record_of_loc]. fold d.
    replace (Z.max (d + ex - 53) (3 - 1024 - 53) - ex) with (Zpos n) by lia.
    unfold shr. rewrite Hn. reflexivity. }
  unfold binary_round_aux. rewrite Hs1. clear Hs1.
  destruct (iter_shr_m n r0) as [Em _]; [simpl; lia|].
  set (r1 := iter_pos shr_1 n r0) in *.
  simpl (shr_m r0) in Em. rewrite Hn in Em.
  pose proof (digits2_bounds M) as [Dlo Dhi]. fold d in Dlo, Dhi.
  assert (Hp : 0 < 2 ^ (d - 53)) by (apply Z.pow_pos_nonneg; lia).
  assert (H52 : 2 ^ (d - 1) = 2 ^ (d - 53) * 2 ^ 52)
    by (rewrite <- Z.pow_add_r by lia; f_equal; lia).
  assert (H53 : 2 ^ d = 2 ^ (d - 53) * 2 ^ 53)
    by (rewrite <- Z.pow_add_r by lia; f_equal; lia).
  assert (Hm' : 2 ^ 52 <= shr_m r1 < 2 ^ 53).
  { rewrite Em. split.
    - apply Z.div_le_lower_bound; [assumption|]. rewrite <- H52. assumption.
    - apply Z.div_lt_upper_bound; [assumption|]. rewrite <- H53. assumption. }
  pose proof (round_nearest_even_bounds (shr_m r1) (loc_of_shr_record r1))
    as HR.
  destruct (round_nearest_even (shr_m r1) (loc_of_shr_record r1))
    as [|q|q] eqn:Eq; try (exfalso; change (2 ^ 52) with 4503599627370496 in Hm'; lia).
  assert (Hq : Zpos q < 2 ^ 53 \/ Zpos q = 2 ^ 53) by lia.
  destruct Hq as [Hq|Hq].
  - assert (Dq : digits2_pos q = 53%positive).
    { assert (Zpos (digits2_pos q) = 53)
        by (apply digits2_unique; change (53 - 1) with 52; lia).
      congruence. }
    rewrite shr_fexp_canonical by (assumption || lia).
    cbn [shr_m].
    replace (ex + (d - 53) <=? 1024 - 53) with true
      by (symmetry; apply Z.leb_le; lia).
    exists q, (ex + (d - 53)). repeat split; (assumption || lia).
  - assert (q = 9007199254740992%positive)
      by (apply Pos2Z.inj; rewrite Hq; reflexivity).
    subst q.
    unfold shr_fexp, fexp, emin. cbn [Zdigits2 shr_record_of_loc].
    change (Zpos (digits2_pos 9007199254740992)) with 54.
    replace (Z.max (54 + (ex + (d - 53)) - 53) (3 - 1024 - 53)
             - (ex + (d - 53))) with 1 by lia.
    cbn [shr iter_pos shr_1 shr_m orb].
    replace (ex + (d - 53) + 1 <=? 1024 - 53) with true
      by (symmetry; apply Z.leb_le; lia).
    exists 4503599627370496%positive, (ex + (d - 53) + 1).
    repeat split; (reflexivity || lia).
Qed.

(** Multiplying a normal double by -1.0 flips its sign bit. *)
Lemma mul_minus_one (s : bool) (m : positive) (e : Z) :
  digits2_pos m = 53%positive -> -1074 <= e <= 971 ->
  F64.mul (S754_finite s m e) (F64.of_int (-1)) = S754_finite (negb s) m e.
Proof.
  intros Hm He.
  change (F64.of_int (-1)) with (S754_finite true 4503599627370496 (-52)).
  unfold F64.mul, SFmul. rewrite xorb_true_r.
  rewrite Pos.mul_comm.
  change (4503599627370496 * m)%positive with (Pos.iter xO m 52).
  assert (Hd : digits2_pos (Pos.iter xO m 52) = 105%positive)
    by (cbn [Pos.iter digits2_pos]; rewrite Hm; reflexivity).
  unfold binary_round_aux.
  assert (Hs1 : shr_fexp F64.prec F64.emax (Zpos (Pos.iter xO m 52))
                  (e + -52) loc_Exact
                = ({| shr_m := Zpos m; shr_r := false; shr_s := false |}, e)).
  { unfold shr_fexp, fexp, emin, F64.prec, F64.emax.
    cbn [Zdigits2 shr_record_of_loc]. rewrite Hd.
    replace (Z.max (105 + (e + -52) - 53) (3 - 1024 - 53) - (e + -52))
      with 52 by lia.
    unfold shr. rewrite iter_shr_exact. f_equal. lia. }
  rewrite Hs1. cbn [shr_m loc_of_shr_record round_nearest_even].
  unfold F64.prec, F64.emax.
  rewrite shr_fexp_canonical by (assumption || lia).
  cbn [shr_m].
  replace (e <=? 1024 - 53) with true by (symmetry; apply Z.leb_le; lia).
  reflexivity.
Qed.

(** The product of two normal doubles, far from overflow and underflow,
    is a normal double. *)
Lemma mul_normal (sx sy : bool) (mx my : positive) (ex ey : Z) :
  digits2_pos mx = 53%positive -> digits2_pos my = 53%positive ->
  -1000 <= ex + ey <= 800 ->
  exists m e,
    F64.mul (S754_finite sx mx ex) (S754_finite sy my ey)
    = S754_finite (xorb sx sy) m e /\
    digits2_pos m = 53%positive /\ -1074 <= e <= 971.
Proof.
  intros Hx Hy He. unfold F64.mul, SFmul, F64.prec, F64.emax.
  pose proof (digits2_bounds mx) as [Xlo Xhi].
  pose proof (digits2_bounds my) as [Ylo Yhi].
  rewrite Hx in Xlo, Xhi. rewrite Hy in Ylo, Yhi.
  change (2 ^ (53 - 1)) with 4503599627370496 in *.
  change (2 ^ 53) with 9007199254740992 in *.
  assert (Hd : Zpos (digits2_pos (mx * my)) = 105
               \/ Zpos (digits2_pos (mx * my)) = 106).
  { destruct (Z.ltb_spec (Zpos (mx * my)) (2 ^ 105)).
    - left. apply digits2_unique. split; [|assumption].
      change (2 ^ (105 - 1)) with (4503599627370496 * 4503599627370496).
      rewrite Pos2Z.inj_mul. apply Z.mul_le_mono_nonneg; lia.
    - right. apply digits2_unique. split; [assumption|].
      change (2 ^ 106) with (9007199254740992 * 9007199254740992).
      rewrite Pos2Z.inj_mul. apply Z.mul_lt_mono_nonneg; lia. }
  destruct (round_aux_normal (xorb sx sy) (mx * my) (ex + ey))
    as (m & e & Hr & Hm & Hb); try lia.
  exists m, e. repeat split; (assumption || lia).
Qed.

Lemma all_from_spec (P : Z -> bool) (n : nat) :
  forall lo : Z,
    all_from n lo P = true ->
    forall z : Z, lo <= z < lo + Z.of_nat n -> P z = true.
Proof.
  induction n as [|n IH]; intros lo H z Hz.
  - simpl in Hz. lia.
  - cbn [all_from] in H. apply andb_true_iff in H. destruct H as [H0 H1].
    destruct (Z.eq_dec z lo) as [->|Hne]; [assumption|].
    apply (IH (lo + 1) H1). lia.
Qed.

Lemma normal_in_inv (lo hi : Z) (x : F64.float) :
  normal_in lo hi x = true ->
  exists s m e, x = S754_finite s m e /\
    digits2_pos m = 53%positive /\ lo <= e <= hi.
Proof.
  destruct x as [s|s| |s m e]; cbn [normal_in]; try discriminate.
  intros H. apply andb_true_iff in H. destruct H as [H H3].
  apply andb_true_iff in H. destruct H as [H1 H2].
  apply Pos.eqb_eq in H1. apply Z.leb_le in H2. apply Z.leb_le in H3.
  exists s, m, e. repeat split; assumption.
Qed.

(** The conversions of the magnitudes that four characters can denote,
    and the powers of ten that a frame can select, are normal doubles. *)
Lemma of_int_normal (b : Z) :
  -999 <= b <= 9999 -> b <> 0 ->
  normal_in (-52) (-39) (F64.of_int b) = true.
Proof.
  intros Hb Hnz.
  assert (Hpos : all_from (Z.to_nat 9999) 1
                   (fun z => normal_in (-52) (-39) (F64.of_int z)) = true)
    by (vm_compute; reflexivity).
  assert (Hneg : all_from (Z.to_nat 999) (-999)
                   (fun z => normal_in (-52) (-39) (F64.of_int z)) = true)
    by (vm_compute; reflexivity).
  destruct (Z.ltb_spec 0 b).
  - apply (all_from_spec _ _ _ Hpos). lia.
  - apply (all_from_spec _ _ _ Hneg). lia.
Qed.

Lemma pow10_normal (e : Z) :
  -12 <= e <= 15 -> normal_in (-93) (-3) (F64.pow10 e) = true.
Proof.
  intros He.
  assert (H : all_from 28 (-12)
                (fun z => normal_in (-93) (-3) (F64.pow10 z)) = true)
    by (vm_compute; reflexivity).
  apply (all_from_spec _ _ _ H). lia.
Qed.

(** On every product that [read] can compute, the multiplication by -1 of
    line 105 is the negation. *)
Lemma negate_product (b e : Z) :
  -999 <= b <= 9999 -> -12 <= e <= 15 ->
  F64.mul (F64.mul (F64.of_int b) (F64.pow10 e)) (F64.of_int (-1))
  = F64.opp (F64.mul (F64.of_int b) (F64.pow10 e)).
Proof.
  intros Hb He.
  destruct (normal_in_inv _ _ _ (pow10_normal e He))
    as (sy & my & ey & Ey & Dy & By).
  rewrite Ey.
  destruct (Z.eq_dec b 0) as [->|Hnz].
  - reflexivity.
  - destruct (normal_in_inv _ _ _ (of_int_normal b Hb Hnz))
      as (sx & mx & ex & Ex & Dx & Bx).
    rewrite Ex.
    destruct (mul_normal sx sy mx my ex ey Dx Dy) as (m & e' & Hp & Dm & Bm);
      [lia|].
    rewrite Hp. apply mul_minus_one; assumption.
Qed.

(** ** Frame positions *)

(** A line with a character at position 5 has four characters at positions
    1 to 4, and they are the slice [line[1:5]]. *)
Lemma slice_1_5 (line : string) (c5 : ascii) :
  str_index line 5 = Ok c5 ->
  exists a b c d,
    String.get 1 line = Some a /\ String.get 2 line = Some b /\
    String.get 3 line = Some c /\ String.get 4 line = Some d /\
    str_slice line 1 5 = String a (String b (String c (String d ""))).
Proof.
  unfold str_index, str_slice.
  destruct line as [|a0 [|a1 [|a2 [|a3 [|a4 [|a5 line]]]]]];
    try discriminate.
  intros _. exists a1, a2, a3, a4. repeat split; reflexivity.
Qed.

(** The flags are the nibbles at positions 6, 7 and 8. *)
Lemma flags_6_9 (line : string) (flags : list Z) (g : Z) :
  mapM chrToInt (list_ascii_of_string (str_slice line 6 9)) = Ok flags ->
  list_index flags 2 = Ok g ->
  exists c6 c7 c8 f0 f1 f2,
    str_index line 6 = Ok c6 /\ str_index line 7 = Ok c7 /\
    str_index line 8 = Ok c8 /\
    chrToInt c6 = Ok f0 /\ chrToInt c7 = Ok f1 /\ chrToInt c8 = Ok f2 /\
    flags = [f0; f1; f2].
Proof.
  unfold str_slice, str_index. intros Hfl Hg.
  destruct line as [|a0 [|a1 [|a2 [|a3 [|a4 [|a5 [|a6 [|a7 [|a8 line]]]]]]]]];
    simpl in Hfl;
    try (replace (substring 0 0 line) with "" in Hfl
          by (destruct line; reflexivity); simpl in Hfl);
    repeat match goal with
           | H : bind ?c _ = Ok _ |- _ =>
               let E := fresh "E" in
               destruct c eqn:E; simpl in H; [|discriminate H]
           | H : Ok _ = Ok _ |- _ => inversion H; subst; clear H
           end;
    try discriminate Hg.
  simpl.
  match goal with
  | H6 : chrToInt a6 = Ok ?f0, H7 : chrToInt a7 = Ok ?f1,
    H8 : chrToInt a8 = Ok ?f2 |- _ =>
      exists a6, a7, a8, f0, f1, f2; repeat split; assumption
  end.
Qed.

(** ** Nibble decoding *)



(** C7, as stated, fails: the error raised for an invalid nibble character
    does not name the offending position. A frame whose only invalid
    character is at position 0 and one whose only invalid character is at
    position 6 raise the same exception, so no function of the exception
    recovers the position. *)
Lemma chrToInt_error_names_no_position :
  ~ exists position_of : exn -> nat,
      (forall e, UT803.read (Some frame_bad_selector) = Raise e ->
                 position_of e = 0%nat) /\
      (forall e, UT803.read (Some frame_bad_flag) = Raise e ->
                 position_of e = 6%nat).
Proof.
  intros [position_of [H0 H6]].
  specialize (H0 (TypeError "Invalid numeric character") eq_refl).
  specialize (H6 (TypeError "Invalid numeric character") eq_refl).
  rewrite H0 in H6. discriminate.
Qed.

(** C7, amended: for every character [c], [chrToInt] returns
    [ord c - ord '0'], a number in 0..15, when [c] is in the range
    '0'..'?' (code points 48 to 63), and raises
    [TypeError("Invalid numeric character")], an exception that carries no
    position, for every character outside that range. *)
Theorem chrToInt_spec (c : ascii) :
  (48 <= ord c <= 63 ->
   chrToInt c = Ok (ord c - 48) /\ 0 <= ord c - 48 <= 15) /\
  (~ 48 <= ord c <= 63 ->
   chrToInt c = Raise (TypeError "Invalid numeric character")).
Proof.
  unfold chrToInt. split; intros H.
  - destruct (Z.leb_spec 0 (ord c - 48)); destruct (Z.leb_spec (ord c - 48) 15);
      simpl; try lia. split; [reflexivity | lia].
  - destruct (Z.leb_spec 0 (ord c - 48)); destruct (Z.leb_spec (ord c - 48) 15);
      simpl; try reflexivity. lia.
Qed.

Lemma chrToInt_spec_witness :
  (chrToInt "?"%char = Ok 15 /\ 0 <= 15 <= 15) /\
  chrToInt "@"%char = Raise (TypeError "Invalid numeric character").
Proof.
  split.
  - apply (proj1 (chrToInt_spec "?"%char)). vm_compute. split; discriminate.
  - apply (proj2 (chrToInt_spec "@"%char)). vm_compute.
    intros [_ H]. apply H. reflexivity.
Defined.

(** ** Unit resolution *)

(** C6: unit resolution returns, for each kind code, 1 -> "V", 2 -> "Hz",
    3 -> "Ohm", 5 -> "Ohm", 6 -> "F", 9 -> "A", 11 -> "V", 13 -> "uA",
    14 -> "", 15 -> "mA", whatever the flags are; the exponent offset is
    "V" -> -3, "Ohm" -> -1, "A" -> -2, "mA" -> -2, "uA" -> -1, "F" -> -12,
    and 0 for every other unit string. *)
Theorem unit_tables_exact :
  (forall flags : list Z,
      UT803.getUnit 1 flags = Ok "V" /\
      UT803.getUnit 2 flags = Ok "Hz" /\
      UT803.getUnit 3 flags = Ok "Ohm" /\
      UT803.getUnit 5 flags = Ok "Ohm" /\
      UT803.getUnit 6 flags = Ok "F" /\
      UT803.getUnit 9 flags = Ok "A" /\
      UT803.getUnit 11 flags = Ok "V" /\
      UT803.getUnit 13 flags = Ok "uA" /\
      UT803.getUnit 14 flags = Ok "" /\
      UT803.getUnit 15 flags = Ok "mA") /\
  (UT803.getExponentOffsetForUnit "V" = -3 /\
   UT803.getExponentOffsetForUnit "Ohm" = -1 /\
   UT803.getExponentOffsetForUnit "A" = -2 /\
   UT803.getExponentOffsetForUnit "mA" = -2 /\
   UT803.getExponentOffsetForUnit "uA" = -1 /\
   UT803.getExponentOffsetForUnit "F" = -12) /\
  (forall unit : string,
      ~ In unit ["V"; "Ohm"; "A"; "mA"; "uA"; "F"] ->
      UT803.getExponentOffsetForUnit unit = 0).
Proof.
  split; [|split].
  - intros flags. repeat split; reflexivity.
  - repeat split; reflexivity.
  - intros unit Hnot.
    unfold UT803.getExponentOffsetForUnit, UT803.exponent_offsets, sdict_find.
    repeat match goal with
           | |- context [String.eqb ?a ?b] =>
               destruct (String.eqb_spec a b);
               [exfalso; apply Hnot; subst; simpl; tauto|]
           end.
    reflexivity.
Qed.

Lemma unit_tables_exact_witness :
  UT803.getExponentOffsetForUnit "Hz" = 0.
Proof.
  apply (proj2 (proj2 unit_tables_exact) "Hz").
  simpl. intros H.
  repeat (destruct H as [H|H]; [discriminate H|]). exact H.
Defined.

(** C8: for the temperature kind (code 4) the unit is "°C" when bit 3 of
    [flags[0]] is set and "°F" when it is clear; and this is the unit of
    every reading that [read] returns for a frame whose kind nibble is 4,
    [flags[0]] being the nibble at position 6. *)
Theorem temperature_unit :
  (forall (f0 : Z) (rest : list Z),
      UT803.getUnit 4 (f0 :: rest)
      = Ok (if Z.testbit f0 3 then "°C" else "°F")) /\
  (forall (line : string) (L : UT803.locals),
      UT803.read_frame line = Ok L ->
      UT803.l_measurement L = 4 ->
      exists c6 f0,
        str_index line 6 = Ok c6 /\ chrToInt c6 = Ok f0 /\
        UT803.l_unit L = if Z.testbit f0 3 then "°C" else "°F").
Proof.
  assert (Hunit : forall f0 rest,
             UT803.getUnit 4 (f0 :: rest)
             = Ok (if Z.testbit f0 3 then "°C" else "°F")).
  { intros f0 rest. unfold UT803.getUnit. simpl.
    rewrite truthy_land_8. reflexivity. }
  split; [exact Hunit|].
  intros line L HL Hm.
  destruct (read_frame_inv line L HL)
    as (c5 & c0 & f0 & f1 & f2 & _ & _ & _ & Hfl & Hf0 & _ & _ & Hu & _).
  rewrite Hm in Hu.
  unfold str_slice in Hfl. unfold str_index.
  destruct line as [|a0 [|a1 [|a2 [|a3 [|a4 [|a5 [|a6 line]]]]]]];
    try (simpl in Hfl; inversion Hfl as [Hnil]; rewrite <- Hnil in Hf0;
         discriminate Hf0).
  simpl in Hfl. simpl.
  destruct (chrToInt a6) as [n6|] eqn:E6; simpl in Hfl; [|discriminate Hfl].
  bind_inv Hfl. inversion Hfl as [Hflags]. rewrite <- Hflags in Hf0, Hu.
  simpl in Hf0. inversion Hf0; subst f0.
  rewrite Hunit in Hu. inversion Hu as [Hu'].
  exists a6, n6. auto.
Qed.


Lemma temperature_unit_witness :
  exists L, UT803.read_frame frame_celsius = Ok L /\
    UT803.l_measurement L = 4 /\
    exists c6 f0,
      str_index frame_celsius 6 = Ok c6 /\ chrToInt c6 = Ok f0 /\
      UT803.l_unit L = if Z.testbit f0 3 then "°C" else "°F".
Proof.
  destruct (UT803.read_frame frame_celsius) as [L|e] eqn:E;
    [|vm_compute in E; discriminate E].
  exists L. split; [reflexivity|].
  assert (Hm : UT803.l_measurement L = 4)
    by (vm_compute in E; inversion E; reflexivity).
  split; [exact Hm|].
  exact (proj2 temperature_unit frame_celsius L E Hm).
Defined.

(** ** Measurement kind *)

(** C9: a reading returned by [read] never has the unit "???": a kind code
    accepted by [measurement_type_table] is a key of the static unit table
    or is the temperature code 4. *)
Theorem unit_never_unknown
  (conn : option string) (v : F64.float) (unit kind : string)
  (fd : list (string * bool)) :
  UT803.read conn = Ok (Some (v, unit, kind, fd)) -> unit <> "???".
Proof.
  destruct conn as [raw|]; [|discriminate].
  intros H.
  destruct (read_inv raw _ H) as [_ [L [HL Hr]]].
  inversion Hr; subst; clear Hr.
  destruct (read_frame_inv raw L HL)
    as (c5 & c0 & f0 & f1 & f2 & _ & _ & Hk & _ & Hf0 & _ & _ & Hu & _).
  apply measurement_type_table_keys in Hk.
  destruct (UT803.l_flags L) as [|g0 gs]; [discriminate Hf0|].
  intros Habs. rewrite Habs in Hu.
  simpl in Hk.
  repeat (destruct Hk as [Hk|Hk]; [rewrite <- Hk in Hu; clear Hk|]);
    try contradiction;
    unfold UT803.getUnit in Hu; simpl in Hu;
    try discriminate Hu.
  destruct (truthy (Z.land g0 8)); discriminate Hu.
Qed.


Lemma unit_never_unknown_witness :
  exists v fd,
    UT803.read (Some frame_voltage) = Ok (Some (v, "V", "voltage", fd)) /\
    "V" <> "???".
Proof.
  destruct (UT803.read (Some frame_voltage)) as [[[[[v u] k] fd]|]|e] eqn:E;
    try (vm_compute in E; discriminate E).
  assert (Hu : u = "V") by (vm_compute in E; inversion E; reflexivity).
  assert (Hk : k = "voltage") by (vm_compute in E; inversion E; reflexivity).
  subst u k.
  exists v, fd. split; [reflexivity|].
  exact (unit_never_unknown (Some frame_voltage) v "V" "voltage" fd E).
Defined.

(** ** Exponent *)

(** The unit is "V" for the kind codes 1 (diode) and 11 (voltage) only. *)
Lemma unit_V_iff (m : Z) (flags : list Z) (unit : string) :
  UT803.getUnit m flags = Ok unit ->
  (unit = "V" <-> m = 1 \/ m = 11).
Proof.
  unfold UT803.getUnit, dict_mem, dict_get, UT803.static_units, dict_find.
  repeat match goal with
         | |- context [?a =? ?b] => destruct (Z.eqb_spec a b); [subst|]
         end;
    simpl; intros H;
    try (destruct (list_index flags 0); simpl in H;
         try destruct (truthy _));
    inversion H; subst;
    split; intros HH; first [discriminate HH | lia | reflexivity].
Qed.

(** C5: with [e0] the selector nibble at position 0, 2 is subtracted from
    [e0] if and only if the resolved unit is "V" and bit 2 of [e0] is set,
    and the final exponent is the result plus the exponent offset of the
    unit. The unit is "V" exactly for the kind codes 1 (diode) and 11
    (voltage), so that for both the exponent is [e0 - 2 - 3] when bit 2 of
    [e0] is set and [e0 - 3] otherwise. *)
Theorem exponent_adjustment (line : string) (L : UT803.locals) :
  UT803.read_frame line = Ok L ->
  let e0 := UT803.l_selector L in
  let unit := UT803.l_unit L in
  (exists c0, str_index line 0 = Ok c0 /\ chrToInt c0 = Ok e0) /\
  UT803.l_exponent L
  = (if String.eqb unit "V" && Z.testbit e0 2 then e0 - 2 else e0)
    + UT803.getExponentOffsetForUnit unit /\
  (unit = "V" <-> UT803.l_measurement L = 1 \/ UT803.l_measurement L = 11) /\
  (UT803.l_measurement L = 1 \/ UT803.l_measurement L = 11 ->
   UT803.l_exponent L = (if Z.testbit e0 2 then e0 - 2 else e0) - 3).
Proof.
  intros HL e0 unit.
  destruct (read_frame_inv line L HL)
    as (c5 & c0 & f0 & f1 & f2 & _ & _ & _ & _ & _ & _ & _ & Hu & H0 & Hc0
        & He & _).
  fold e0 in Hc0, He. fold unit in Hu, He.
  assert (Hexp : UT803.l_exponent L
                 = (if String.eqb unit "V" && Z.testbit e0 2
                    then e0 - 2 else e0)
                   + UT803.getExponentOffsetForUnit unit).
  { rewrite He. unfold UT803.exponent_of. rewrite truthy_land_4.
    reflexivity. }
  pose proof (unit_V_iff _ _ _ Hu) as HV.
  repeat split.
  - exists c0. split; assumption.
  - exact Hexp.
  - apply HV.
  - apply HV.
  - intros Hm. apply HV in Hm. rewrite Hexp, Hm. simpl.
    destruct (Z.testbit e0 2); reflexivity.
Qed.


Lemma exponent_adjustment_witness :
  exists L, UT803.read_frame frame_diode = Ok L /\
    UT803.l_measurement L = 1 /\ UT803.l_selector L = 4 /\
    UT803.l_exponent L = -1.
Proof.
  destruct (UT803.read_frame frame_diode) as [L|e] eqn:E;
    [|vm_compute in E; discriminate E].
  exists L. split; [reflexivity|].
  assert (Hm : UT803.l_measurement L = 1)
    by (vm_compute in E; inversion E; reflexivity).
  assert (Hs : UT803.l_selector L = 4)
    by (vm_compute in E; inversion E; reflexivity).
  split; [exact Hm|]. split; [exact Hs|].
  destruct (exponent_adjustment frame_diode L E) as (_ & _ & _ & Hd).
  rewrite (Hd (or_introl Hm)), Hs. reflexivity.
Defined.

(** ** [prettyValueFormat] *)

(** The doubles of the literals that [prettyValueFormat] compares with. *)
Lemma literal_0 : F64.decimal 0 0 = S754_zero false.
Proof. reflexivity. Qed.

Lemma literal_1e_9 :
  F64.decimal 1 (-9) = S754_finite false 4835703278458517 (-82).
Proof. vm_compute. reflexivity. Qed.

(** A strictly negative double is an infinity or a finite number with the
    sign bit set. *)
Lemma negative_cases (x : F64.float) :
  F64.ltb x (F64.decimal 0 0) = true ->
  x = S754_infinity true \/ exists m e, x = S754_finite true m e.
Proof.
  rewrite literal_0. unfold F64.ltb, SFltb.
  destruct x as [s|s| |s m e]; simpl; try discriminate.
  - destruct s; [auto | discriminate].
  - destruct s; [eauto | discriminate].
Qed.

(** C10: for every strictly negative value, [prettyValueFormat] returns
    [(value * 1e12, "p" + unit)], the first threshold test
    [value < 1e-9] being true; -5.0 with unit "V" gives (-5e12, "pV"). *)
Theorem prettyValueFormat_negative :
  (forall (value : F64.float) (unit : string),
      F64.ltb value (F64.decimal 0 0) = true ->
      F64.ltb value (F64.decimal 1 (-9)) = true /\
      prettyValueFormat value unit
      = (F64.mul value (F64.decimal 1 12), "p" ++ unit)) /\
  prettyValueFormat (F64.decimal (-5) 0) "V" = (F64.decimal (-5) 12, "pV").
Proof.
  split; [|vm_compute; reflexivity].
  intros value unit Hneg.
  unfold prettyValueFormat.
  destruct (negative_cases value Hneg) as [->|[m [e ->]]];
    rewrite literal_0, literal_1e_9; split; reflexivity.
Qed.

Lemma prettyValueFormat_negative_witness :
  prettyValueFormat (F64.decimal (-25) (-1)) "A"
  = (F64.mul (F64.decimal (-25) (-1)) (F64.decimal 1 12), "pA").
Proof.
  apply (proj1 prettyValueFormat_negative (F64.decimal (-25) (-1)) "A").
  vm_compute. reflexivity.
Defined.

(** C3, as stated, fails on its first example: 0.0000000005 is below the
    first threshold 1e-9, so it is scaled by 1e12 and given the prefix
    "p"; it is not returned as 0.5 with the prefix "n". *)
Lemma prettyValueFormat_half_nano_is_pico :
  prettyValueFormat (F64.decimal 5 (-10)) "F"
  = (S754_finite false 8796093022208001 (-44), "pF") /\
  prettyValueFormat (F64.decimal 5 (-10)) "F" <> (F64.decimal 5 (-1), "nF").
Proof.
  split; vm_compute; [reflexivity | discriminate].
Qed.

(** C3, amended: [prettyValueFormat] maps 0.0000000005 to
    [(0.0000000005 * 1e12, "p" + unit)], whose value is the double next
    above 500 (8796093022208001 * 2^-44, printed 500.00000000000006); it
    maps 1500 to [(1.5, "k" + unit)] and 0 to [(0, unit)] unchanged. *)
Theorem prettyValueFormat_examples (unit : string) :
  prettyValueFormat (F64.decimal 5 (-10)) unit
  = (F64.mul (F64.decimal 5 (-10)) (F64.decimal 1 12), "p" ++ unit) /\
  F64.mul (F64.decimal 5 (-10)) (F64.decimal 1 12)
  = S754_finite false 8796093022208001 (-44) /\
  S754_finite false 8796093022208001 (-44)
  = SFsucc F64.prec F64.emax (F64.decimal 500 0) /\
  prettyValueFormat (F64.decimal 1500 0) unit
  = (F64.decimal 15 (-1), "k" ++ unit) /\
  prettyValueFormat (F64.decimal 0 0) unit = (F64.decimal 0 0, unit).
Proof.
  repeat split; vm_compute; reflexivity.
Qed.

(** ** The magnitude digits *)

Lemma is_digit_true (c : ascii) :
  is_digit c = true -> 0 <= ord c - 48 <= 9.
Proof.
  unfold is_digit. intros H. apply andb_true_iff in H.
  destruct H as [H1 H2]. apply Z.leb_le in H1. apply Z.leb_le in H2. lia.
Qed.

Ltac split_ifs :=
  repeat (cbn [parse_int skip_spaces scan_digits] in *;
          match goal with
          | |- context [if ?b then _ else _] =>
              let E := fresh "E" in destruct b eqn:E
          end).

Local Opaque Z.mul Z.add Z.sub Z.opp.

(** [int()] on four characters gives a number of at most four digits, or
    of at most three digits after a sign. *)
Lemma parse_int_4_bound (a b c d : ascii) (n : Z) :
  parse_int [a; b; c; d] = Some n -> -999 <= n <= 9999.
Proof.
  unfold parse_int. split_ifs.
  all: cbv beta iota; intros H; try discriminate H.
  all: inversion H; subst; clear H.
  all: repeat match goal with
         | H : is_digit ?c = true |- _ => apply is_digit_true in H
         end.
  all: lia.
Qed.

(** Four decimal digits are read in base 10. *)
Lemma parse_int_4_digits (a b c d : ascii) :
  is_digit a = true -> is_digit b = true ->
  is_digit c = true -> is_digit d = true ->
  parse_int [a; b; c; d]
  = Some (1000 * (ord a - 48) + 100 * (ord b - 48)
          + 10 * (ord c - 48) + (ord d - 48)).
Proof.
  intros Ha Hb Hc Hd.
  assert (Hsp : is_space a = false).
  { unfold is_digit in Ha. unfold is_space.
    apply andb_true_iff in Ha. destruct Ha as [H1 H2].
    apply Z.leb_le in H1.
    destruct (Z.leb_spec 9 (ord a)); destruct (Z.leb_spec (ord a) 13);
      destruct (Z.eqb_spec (ord a) 32); simpl; try reflexivity; lia. }
  assert (Hm : Ascii.eqb a "-"%char = false).
  { destruct (Ascii.eqb_spec a "-"%char) as [->|]; [discriminate Ha|reflexivity]. }
  assert (Hp : Ascii.eqb a "+"%char = false).
  { destruct (Ascii.eqb_spec a "+"%char) as [->|]; [discriminate Ha|reflexivity]. }
  unfold parse_int. cbn [skip_spaces]. rewrite Hsp, Hm, Hp, Ha.
  cbn [scan_digits]. rewrite Hb. cbn [scan_digits]. rewrite Hc.
  cbn [scan_digits]. rewrite Hd. cbn [scan_digits skip_spaces].
  f_equal. lia.
Qed.

(** A space, a plus sign or a minus sign before three digits is accepted. *)
Lemma parse_int_sign_digits (b c d : ascii) :
  is_digit b = true -> is_digit c = true -> is_digit d = true ->
  let n := 100 * (ord b - 48) + 10 * (ord c - 48) + (ord d - 48) in
  parse_int [" "%char; b; c; d] = Some n /\
  parse_int ["+"%char; b; c; d] = Some n /\
  parse_int ["-"%char; b; c; d] = Some (- n).
Proof.
  intros Hb Hc Hd n.
  assert (Hsp : is_space b = false).
  { unfold is_digit in Hb. unfold is_space.
    apply andb_true_iff in Hb. destruct Hb as [H1 H2].
    apply Z.leb_le in H1.
    destruct (Z.leb_spec 9 (ord b)); destruct (Z.leb_spec (ord b) 13);
      destruct (Z.eqb_spec (ord b) 32); simpl; try reflexivity; lia. }
  assert (Hm : Ascii.eqb b "-"%char = false).
  { destruct (Ascii.eqb_spec b "-"%char) as [->|]; [discriminate Hb|reflexivity]. }
  assert (Hp : Ascii.eqb b "+"%char = false).
  { destruct (Ascii.eqb_spec b "+"%char) as [->|]; [discriminate Hb|reflexivity]. }
  assert (Hspace : is_space " "%char = true) by reflexivity.
  assert (Hplus : is_space "+"%char = false) by reflexivity.
  assert (Hminus : is_space "-"%char = false) by reflexivity.
  unfold parse_int. cbn [skip_spaces].
  rewrite Hspace, Hplus, Hminus, Hsp, Hm, Hp.
  change (Ascii.eqb "+" "-") with false.
  change (Ascii.eqb "+" "+") with true.
  change (Ascii.eqb "-" "-") with true.
  cbv beta iota. rewrite Hb.
  cbn [scan_digits]. rewrite Hc. cbn [scan_digits]. rewrite Hd.
  cbn [scan_digits skip_spaces].
  unfold n. repeat split; f_equal; lia.
Qed.

Local Transparent Z.mul Z.add Z.sub Z.opp.

(** The magnitude of a decoded frame is what [int()] gives on the four
    characters at positions 1 to 4, and lies between -999 and 9999. *)
Lemma base_value_range (line : string) (L : UT803.locals) :
  UT803.read_frame line = Ok L -> -999 <= UT803.l_base_value L <= 9999.
Proof.
  intros HL.
  destruct (read_frame_inv line L HL)
    as (c5 & c0 & f0 & f1 & f2 & H5 & _ & _ & _ & _ & _ & _ & _ & _ & _ & _
        & Hb & _).
  destruct (slice_1_5 line c5 H5) as (a & b & c & d & _ & _ & _ & _ & Hs).
  rewrite Hs in Hb. unfold py_int in Hb. cbn [list_ascii_of_string] in Hb.
  destruct (parse_int [a; b; c; d]) as [n|] eqn:Hp; [|discriminate Hb].
  injection Hb as <-. apply (parse_int_4_bound a b c d n Hp).
Qed.

(** ** The decoded value *)

(** The exponent of a frame is between -12 and 15. *)
Lemma exponent_of_range (unit : string) (selector : Z) :
  0 <= selector <= 15 -> -12 <= UT803.exponent_of unit selector <= 15.
Proof.
  intros Hs. unfold UT803.exponent_of.
  destruct (String.eqb_spec unit "V") as [->|HV].
  - change (UT803.getExponentOffsetForUnit "V") with (-3).
    destruct (truthy (Z.land selector 4)) eqn:Hbit; simpl andb; cbv iota;
      [|lia].
    rewrite truthy_land_4 in Hbit.
    assert (4 <= selector).
    { destruct (Z.ltb_spec selector 4); [|assumption].
      assert (Hc : selector = 0 \/ selector = 1 \/ selector = 2 \/ selector = 3)
        by lia.
      destruct Hc as [-> | [-> | [-> | ->]]]; discriminate Hbit. }
    lia.
  - simpl andb. cbv iota.
    unfold UT803.getExponentOffsetForUnit, UT803.exponent_offsets, sdict_find.
    repeat match goal with
           | |- context [String.eqb ?a ?b] => destruct (String.eqb a b)
           end; lia.
Qed.

(** C1: for every frame that [read] decodes, the value is
    [float(base_value) * 10**exponent], where [base_value] is the magnitude
    read at positions 1 to 4 and [exponent] the exponent of the frame, and
    it is negated exactly when bit 2 of [flags[0]], the nibble at position
    6, is set. With the sign flag clear, a voltage frame (kind code 11)
    with selector 4 and magnitude 1234 has the exponent -1, the value 123.4
    and the unit "V", and a capacitance frame (kind code 6) with selector 0
    and magnitude 5000 has the exponent -12, the value 5e-9 and the unit
    "F"; [frame_voltage] and [frame_capacitance] are such frames. *)
Theorem decoded_value :
  (forall (line : string) (L : UT803.locals),
      UT803.read_frame line = Ok L ->
      exists c6 f0,
        str_index line 6 = Ok c6 /\ chrToInt c6 = Ok f0 /\
        let p := F64.mul (F64.of_int (UT803.l_base_value L))
                         (F64.pow10 (UT803.l_exponent L)) in
        UT803.l_value L = if Z.testbit f0 2 then F64.opp p else p) /\
  (forall (line : string) (L : UT803.locals) (c6 : ascii) (f0 : Z),
      UT803.read_frame line = Ok L ->
      str_index line 6 = Ok c6 -> chrToInt c6 = Ok f0 ->
      Z.testbit f0 2 = false ->
      (UT803.l_measurement L = 11 -> UT803.l_selector L = 4 ->
       UT803.l_base_value L = 1234 ->
       UT803.l_exponent L = -1 /\
       UT803.l_value L = F64.decimal 1234 (-1) /\ UT803.l_unit L = "V") /\
      (UT803.l_measurement L = 6 -> UT803.l_selector L = 0 ->
       UT803.l_base_value L = 5000 ->
       UT803.l_exponent L = -12 /\
       UT803.l_value L = F64.decimal 5 (-9) /\ UT803.l_unit L = "F")) /\
  UT803.read (Some frame_voltage)
  = Ok (Some (F64.decimal 1234 (-1), "V", "voltage", flags_all_clear)) /\
  UT803.read (Some frame_capacitance)
  = Ok (Some (F64.decimal 5 (-9), "F", "capacitance", flags_all_clear)).
Proof.
  assert (Hval : forall line L,
             UT803.read_frame line = Ok L ->
             exists c6 f0,
               str_index line 6 = Ok c6 /\ chrToInt c6 = Ok f0 /\
               UT803.l_value L
               = if Z.testbit f0 2
                 then F64.opp (F64.mul (F64.of_int (UT803.l_base_value L))
                                       (F64.pow10 (UT803.l_exponent L)))
                 else F64.mul (F64.of_int (UT803.l_base_value L))
                              (F64.pow10 (UT803.l_exponent L))).
  { intros line L HL.
    destruct (read_frame_inv line L HL)
      as (c5 & c0 & f0 & f1 & f2 & H5 & _ & _ & Hfl & Hf0 & _ & Hf2 & _ & _
          & Hc0 & He & Hb & Hv).
    destruct (flags_6_9 line _ f2 Hfl Hf2)
      as (c6 & c7 & c8 & g0 & g1 & g2 & G6 & _ & _ & N6 & _ & _ & Hflags).
    rewrite Hflags in Hf0. simpl in Hf0. injection Hf0 as <-.
    exists c6, g0. split; [assumption|]. split; [assumption|].
    rewrite Hv. unfold UT803.value_of. rewrite truthy_land_4.
    destruct (Z.testbit g0 2); [|reflexivity].
    apply negate_product.
    - apply (base_value_range line L HL).
    - rewrite He. apply exponent_of_range.
      apply (chrToInt_Ok c0 _ Hc0). }
  split; [exact Hval|]. split; [|split; vm_compute; reflexivity].
  intros line L c6 f0 HL H6 N6 Hsign.
  destruct (Hval line L HL) as (c6' & f0' & H6' & N6' & Hv).
  assert (f0' = f0) by congruence. subst f0'. rewrite Hsign in Hv.
  destruct (read_frame_inv line L HL)
    as (c5 & c0 & g0 & g1 & g2 & _ & _ & _ & _ & _ & _ & _ & Hu & _ & _ & He & _).
  split; intros Hm Hs Hb; rewrite Hm in Hu; rewrite Hv, He;
    injection Hu as <-; rewrite Hs, Hb; repeat split;
    vm_compute; reflexivity.
Qed.

Lemma decoded_value_witness :
  exists L c6 f0,
    UT803.read_frame frame_negative = Ok L /\
    str_index frame_negative 6 = Ok c6 /\ chrToInt c6 = Ok f0 /\
    let p := F64.mul (F64.of_int (UT803.l_base_value L))
                     (F64.pow10 (UT803.l_exponent L)) in
    UT803.l_value L = if Z.testbit f0 2 then F64.opp p else p.
Proof.
  destruct (UT803.read_frame frame_negative) as [L|e] eqn:E;
    [|vm_compute in E; discriminate E].
  destruct (proj1 decoded_value frame_negative L E) as (c6 & f0 & H6 & N6 & Hv).
  exists L, c6, f0. repeat split; assumption.
Defined.

(** ** Decimal literals

    [F64.decimal] agrees with the correctly rounded decimal literals of
    the primitive binary64 numbers on the constants used above. *)

Module LiteralCheck.

Import PrimFloat.
#[local] Set Warnings "-inexact-float".

Lemma decimal_literals :
  FloatOps.Prim2SF 123.4%float = F64.decimal 1234 (-1) /\
  FloatOps.Prim2SF 5e-9%float = F64.decimal 5 (-9) /\
  FloatOps.Prim2SF 5e-10%float = F64.decimal 5 (-10) /\
  FloatOps.Prim2SF 1.5%float = F64.decimal 15 (-1) /\
  FloatOps.Prim2SF 1e-9%float = F64.decimal 1 (-9) /\
  FloatOps.Prim2SF 1e-6%float = F64.decimal 1 (-6) /\
  FloatOps.Prim2SF 1e-3%float = F64.decimal 1 (-3) /\
  FloatOps.Prim2SF 1e3%float = F64.decimal 1 3 /\
  FloatOps.Prim2SF 1e6%float = F64.decimal 1 6 /\
  FloatOps.Prim2SF 1e9%float = F64.decimal 1 9 /\
  FloatOps.Prim2SF 1e12%float = F64.decimal 1 12 /\
  FloatOps.Prim2SF (-5e12)%float = F64.decimal (-5) 12.
Proof. repeat split; vm_compute; reflexivity. Qed.

Lemma pow10_literals :
  FloatOps.Prim2SF 0.1%float = F64.pow10 (-1) /\
  FloatOps.Prim2SF 1e-2%float = F64.pow10 (-2) /\
  FloatOps.Prim2SF 1e-3%float = F64.pow10 (-3) /\
  FloatOps.Prim2SF 1e-4%float = F64.pow10 (-4) /\
  FloatOps.Prim2SF 1e-5%float = F64.pow10 (-5) /\
  FloatOps.Prim2SF 1e-6%float = F64.pow10 (-6) /\
  FloatOps.Prim2SF 1e-7%float = F64.pow10 (-7) /\
  FloatOps.Prim2SF 1e-8%float = F64.pow10 (-8) /\
  FloatOps.Prim2SF 1e-9%float = F64.pow10 (-9) /\
  FloatOps.Prim2SF 1e-10%float = F64.pow10 (-10) /\
  FloatOps.Prim2SF 1e-11%float = F64.pow10 (-11) /\
  FloatOps.Prim2SF 1e-12%float = F64.pow10 (-12) /\
  FloatOps.Prim2SF 1e15%float = F64.pow10 15.
Proof. repeat split; vm_compute; reflexivity. Qed.

End LiteralCheck.

(** * Further properties *)

(** ** [chrToInt] and its docstring *)

(** X1: [chrToInt] accepts exactly the sixteen characters that its
    docstring lists, "0123456789:;<=>?", and returns the index of the
    character in that list; so two different valid characters never give
    the same nibble. *)
Theorem chrToInt_alphabet (c : ascii) (n : Z) :
  chrToInt c = Ok n <->
  0 <= n <= 15 /\ String.get (Z.to_nat n) nibble_alphabet = Some c.
Proof.
  assert (Hcases : 0 <= n <= 15 -> In n (map Z.of_nat (seq 0 16))).
  { intros Hr. rewrite <- (Z2Nat.id n) by lia.
    apply in_map, in_seq. lia. }
  split.
  - intros H. destruct (chrToInt_Ok c n H) as [Hn Hr].
    split; [exact Hr|].
    assert (Hc : c = ascii_of_nat (Z.to_nat (n + 48))).
    { rewrite <- (ascii_nat_embedding c) at 1. f_equal.
      unfold ord in Hn. lia. }
    clear H Hn. subst c.
    specialize (Hcases Hr). cbn [map seq Z.of_nat Pos.of_succ_nat Pos.succ]
      in Hcases.
    repeat (destruct Hcases as [<- | Hcases]; [reflexivity|]).
    contradiction.
  - intros [Hr Hg].
    specialize (Hcases Hr). cbn [map seq Z.of_nat Pos.of_succ_nat Pos.succ]
      in Hcases.
    repeat (destruct Hcases as [<- | Hcases];
            [vm_compute in Hg; injection Hg as <-; reflexivity|]).
    contradiction.
Qed.

Lemma chrToInt_alphabet_witness :
  chrToInt ";"%char = Ok 11 /\
  String.get (Z.to_nat 11) nibble_alphabet = Some ";"%char.
Proof.
  split.
  - apply (proj2 (chrToInt_alphabet ";"%char 11)).
    split; [lia | reflexivity].
  - apply (proj1 (chrToInt_alphabet ";"%char 11)). reflexivity.
Defined.

(** ** [getUnit] on any code *)

(** X2: called with a non-empty flag list, [getUnit] never raises, and
    it returns the fallback "???" exactly for the codes that are neither
    a key of its table nor the temperature code 4; with an empty flag
    list it raises [IndexError] for the code 4 and for no other code. *)
Theorem getUnit_fallback (m : Z) (flags : list Z) :
  (flags <> [] ->
   exists unit, UT803.getUnit m flags = Ok unit /\
     (unit = "???" <-> ~ In m unit_codes)) /\
  (UT803.getUnit m [] = Raise IndexError <-> m = 4).
Proof.
  split.
  - intros Hne. destruct flags as [|f0 fs]; [contradiction|].
    unfold UT803.getUnit, dict_mem, dict_get, UT803.static_units, dict_find,
      unit_codes.
    repeat match goal with
           | |- context [?a =? ?b] => destruct (Z.eqb_spec a b); [subst|]
           end;
      simpl; try destruct (truthy (Z.land f0 8));
      eexists; (split; [reflexivity|]);
      (split;
       [ intros HH; try discriminate HH; intros Hin; simpl in Hin; lia
       | intros Hnot; try reflexivity; exfalso; apply Hnot; simpl; lia ]).
  - unfold UT803.getUnit, dict_mem, dict_get, UT803.static_units, dict_find.
    repeat match goal with
           | |- context [?a =? ?b] => destruct (Z.eqb_spec a b); [subst|]
           end;
      simpl;
      (split; [intros HH; try discriminate HH; reflexivity
              | intros HH; try reflexivity; try discriminate HH; lia]).
Qed.

Lemma getUnit_fallback_witness :
  exists unit, UT803.getUnit 7 [0; 0; 0] = Ok unit /\
    (unit = "???" <-> ~ In 7 unit_codes).
Proof.
  apply (proj1 (getUnit_fallback 7 [0; 0; 0])). discriminate.
Defined.

(** ** The outcomes of [read] *)

Lemma gtb_land_pow2 (x k : Z) :
  0 <= k -> (Z.land x (2 ^ k) >? 0) = Z.testbit x k.
Proof.
  intros Hk. rewrite <- (truthy_land_pow2 x k Hk). unfold truthy.
  assert (Hnn : 0 <= Z.land x (2 ^ k)).
  { apply Z.land_nonneg. right. apply Z.pow_nonneg. lia. }
  destruct (Z.eqb_spec (Z.land x (2 ^ k)) 0) as [H0|Hne].
  - rewrite H0. reflexivity.
  - simpl. apply Z.gtb_lt. lia.
Qed.

Lemma gtb_land_1 (x : Z) : (Z.land x 1 >? 0) = Z.testbit x 0.
Proof. apply (gtb_land_pow2 x 0). lia. Qed.

Lemma gtb_land_2 (x : Z) : (Z.land x 2 >? 0) = Z.testbit x 1.
Proof. apply (gtb_land_pow2 x 1). lia. Qed.

Lemma gtb_land_4 (x : Z) : (Z.land x 4 >? 0) = Z.testbit x 2.
Proof. apply (gtb_land_pow2 x 2). lia. Qed.

Lemma gtb_land_8 (x : Z) : (Z.land x 8 >? 0) = Z.testbit x 3.
Proof. apply (gtb_land_pow2 x 3). lia. Qed.

(** With a flag list that is not empty, [getUnit] returns a unit. *)
Lemma getUnit_total (m f0 : Z) (fs : list Z) :
  exists unit, UT803.getUnit m (f0 :: fs) = Ok unit.
Proof.
  unfold UT803.getUnit.
  destruct (dict_mem UT803.static_units m) eqn:Hmem.
  - unfold dict_mem in Hmem. unfold dict_get.
    destruct (dict_find UT803.static_units m) as [u|]; [|discriminate Hmem].
    exists u. reflexivity.
  - destruct (m =? 4); simpl; eexists; reflexivity.
Qed.

Lemma chrToInt_nibble_char (c : ascii) :
  chrToInt c = if nibble_char c then Ok (ord c - 48)
               else Raise (TypeError "Invalid numeric character").
Proof. reflexivity. Qed.

(** [read_frame] on a line of eleven characters, step by step. *)
Lemma read_frame_11 (c0 d1 d2 d3 d4 c5 c6 c7 c8 t9 t10 : ascii) :
  let line := string_of_list_ascii [c0; d1; d2; d3; d4; c5; c6; c7; c8; t9; t10] in
  UT803.read_frame line
  = (measurement <- chrToInt c5 ;;
     meas_type <- dict_get UT803.measurement_type_table measurement ;;
     f0 <- chrToInt c6 ;;
     f1 <- chrToInt c7 ;;
     f2 <- chrToInt c8 ;;
     unit <- UT803.getUnit measurement [f0; f1; f2] ;;
     selector <- chrToInt c0 ;;
     base_value <- py_int (string_of_list_ascii [d1; d2; d3; d4]) ;;
     Ok {| UT803.l_measurement := measurement;
           UT803.l_meas_type := meas_type;
           UT803.l_flags := [f0; f1; f2];
           UT803.l_unit := unit;
           UT803.l_selector := selector;
           UT803.l_exponent := UT803.exponent_of unit selector;
           UT803.l_base_value := base_value;
           UT803.l_value :=
             UT803.value_of base_value (UT803.exponent_of unit selector)
               (Z.land f0 4);
           UT803.l_flags_dict :=
             [ ("overload", Z.land f0 1 >? 0);
               ("sign", Z.land f0 4 >? 0);
               ("not_farenheit", Z.land f0 8 >? 0);
               ("min", Z.land f1 2 >? 0);
               ("max", Z.land f1 4 >? 0);
               ("hold", Z.land f1 8 >? 0);
               ("autorange", Z.land f2 2 >? 0);
               ("ac", Z.land f2 4 >? 0);
               ("dc", Z.land f2 8 >? 0) ] |}).
Proof.
  intros line. unfold line, UT803.read_frame, str_index, str_slice.
  cbn [string_of_list_ascii String.get Nat.sub substring list_ascii_of_string
       Nat.eqb].
  simpl String.get. cbn [bind].
  destruct (chrToInt c5) as [m|e]; [|reflexivity]. cbn [bind].
  destruct (dict_get UT803.measurement_type_table m) as [k|e]; [|reflexivity].
  cbn [bind mapM].
  destruct (chrToInt c6) as [f0|e]; [|reflexivity]. cbn [bind].
  destruct (chrToInt c7) as [f1|e]; [|reflexivity]. cbn [bind].
  destruct (chrToInt c8) as [f2|e]; [|reflexivity]. cbn [bind].
  cbn [list_index nth_error].
  reflexivity.
Qed.

(** A string of length 11 is a list of eleven characters. *)
Lemma length_11 (raw : string) :
  String.length raw = 11%nat ->
  exists c0 d1 d2 d3 d4 c5 c6 c7 c8 t9 t10,
    raw = string_of_list_ascii [c0; d1; d2; d3; d4; c5; c6; c7; c8; t9; t10].
Proof.
  intros H.
  destruct raw as [|c0 [|d1 [|d2 [|d3 [|d4 [|c5 [|c6 [|c7 [|c8 [|t9 [|t10 [|x r]]]]]]]]]]]];
    try discriminate H.
  repeat eexists.
Qed.

Lemma table_keys_iff (m : Z) :
  dict_mem UT803.measurement_type_table m = true <-> In m unit_codes.
Proof.
  unfold dict_mem, UT803.measurement_type_table, dict_find, unit_codes.
  repeat match goal with
         | |- context [?a =? ?b] =>
             destruct (Z.eqb_spec a b);
             [subst; split; [intros _; simpl; tauto | reflexivity]|]
         end.
  split; [discriminate|]. simpl. intros H. exfalso. lia.
Qed.

(** [read] on an open connection, for an ASCII line of eleven characters. *)
Lemma read_11 (c0 d1 d2 d3 d4 c5 c6 c7 c8 t9 t10 : ascii) :
  let raw := string_of_list_ascii [c0; d1; d2; d3; d4; c5; c6; c7; c8; t9; t10] in
  decode_ascii raw = Ok raw ->
  UT803.read (Some raw)
  = (L <- UT803.read_frame raw ;;
     Ok (Some (UT803.l_value L, UT803.l_unit L, UT803.l_meas_type L,
               UT803.l_flags_dict L))).
Proof.
  intros raw Hdec. unfold UT803.read. rewrite Hdec. reflexivity.
Qed.

(** Where a reading comes from. *)
Lemma read_Some_inv (raw : string) (r : UT803.reading) :
  UT803.read (Some raw) = Ok (Some r) ->
  exists c0 d1 d2 d3 d4 c5 c6 c7 c8 t9 t10 m k f0 f1 f2 u sel b,
    raw = string_of_list_ascii [c0; d1; d2; d3; d4; c5; c6; c7; c8; t9; t10] /\
    decode_ascii raw = Ok raw /\
    chrToInt c5 = Ok m /\
    dict_get UT803.measurement_type_table m = Ok k /\
    chrToInt c6 = Ok f0 /\ chrToInt c7 = Ok f1 /\ chrToInt c8 = Ok f2 /\
    UT803.getUnit m [f0; f1; f2] = Ok u /\
    chrToInt c0 = Ok sel /\
    py_int (string_of_list_ascii [d1; d2; d3; d4]) = Ok b /\
    r = (UT803.value_of b (UT803.exponent_of u sel) (Z.land f0 4), u, k,
         flag_bits f0 f1 f2).
Proof.
  intros H.
  destruct (read_inv raw r H) as [Hlen _].
  assert (Hdec : decode_ascii raw = Ok raw).
  { unfold UT803.read in H. unfold decode_ascii in *.
    destruct (forallb _ _); [reflexivity | discriminate H]. }
  destruct (length_11 raw Hlen)
    as (c0 & d1 & d2 & d3 & d4 & c5 & c6 & c7 & c8 & t9 & t10 & Hraw).
  subst raw. rewrite (read_11 _ _ _ _ _ _ _ _ _ _ _ Hdec) in H.
  rewrite read_frame_11 in H.
  destruct (chrToInt c5) as [m|] eqn:E5; [|discriminate H]. cbn [bind] in H.
  destruct (dict_get UT803.measurement_type_table m) as [k|] eqn:Ek;
    [|discriminate H]. cbn [bind] in H.
  destruct (chrToInt c6) as [f0|] eqn:E6; [|discriminate H]. cbn [bind] in H.
  destruct (chrToInt c7) as [f1|] eqn:E7; [|discriminate H]. cbn [bind] in H.
  destruct (chrToInt c8) as [f2|] eqn:E8; [|discriminate H]. cbn [bind] in H.
  destruct (UT803.getUnit m [f0; f1; f2]) as [u|] eqn:Eu; [|discriminate H].
  cbn [bind] in H.
  destruct (chrToInt c0) as [sel|] eqn:E0; [|discriminate H]. cbn [bind] in H.
  destruct (py_int (string_of_list_ascii [d1; d2; d3; d4])) as [b|] eqn:Eb;
    [|discriminate H].
  cbn [bind UT803.l_value UT803.l_unit UT803.l_meas_type UT803.l_flags_dict]
    in H.
  exists c0, d1, d2, d3, d4, c5, c6, c7, c8, t9, t10, m, k, f0, f1, f2, u, sel, b.
  repeat (split; [first [reflexivity | assumption]|]).
  injection H as <-. unfold flag_bits.
  rewrite !gtb_land_1, !gtb_land_2, !gtb_land_4, !gtb_land_8. reflexivity.
Qed.

(** X3: in a reading, each of the nine flags is one bit of a flag nibble:
    overload, sign and not_farenheit are bits 0, 2 and 3 of the nibble at
    position 6; min, max and hold are bits 1, 2 and 3 of the nibble at
    position 7; autorange, ac and dc are bits 1, 2 and 3 of the nibble at
    position 8. The dict always has these nine keys, in this order. *)
Theorem flags_dict_bits
  (raw : string) (v : F64.float) (unit kind : string)
  (fd : list (string * bool)) :
  UT803.read (Some raw) = Ok (Some (v, unit, kind, fd)) ->
  exists c6 c7 c8 f0 f1 f2,
    str_index raw 6 = Ok c6 /\ str_index raw 7 = Ok c7 /\
    str_index raw 8 = Ok c8 /\
    chrToInt c6 = Ok f0 /\ chrToInt c7 = Ok f1 /\ chrToInt c8 = Ok f2 /\
    fd = flag_bits f0 f1 f2.
Proof.
  intros H.
  destruct (read_Some_inv raw _ H)
    as (c0 & d1 & d2 & d3 & d4 & c5 & c6 & c7 & c8 & t9 & t10 & m & k & f0
        & f1 & f2 & u & sel & b & Hraw & _ & _ & _ & H6 & H7 & H8 & _ & _ & _
        & Hr).
  subst raw. injection Hr as _ _ _ ->.
  exists c6, c7, c8, f0, f1, f2. repeat split; (reflexivity || assumption).
Qed.

Lemma flags_dict_bits_witness :
  exists v unit kind fd c6 f0,
    UT803.read (Some frame_negative) = Ok (Some (v, unit, kind, fd)) /\
    chrToInt c6 = Ok f0 /\
    sdict_find fd "sign" = Some (Z.testbit f0 2).
Proof.
  destruct (UT803.read (Some frame_negative)) as [[[[[v u] k] fd]|]|e] eqn:E;
    try (vm_compute in E; discriminate E).
  destruct (flags_dict_bits frame_negative v u k fd E)
    as (c6 & c7 & c8 & f0 & f1 & f2 & _ & _ & _ & H6 & _ & _ & Hfd).
  exists v, u, k, fd, c6, f0. split; [reflexivity|]. split; [exact H6|].
  rewrite Hfd. reflexivity.
Defined.

(** An ASCII line whose length is not 11 is dropped. *)
Lemma read_None_iff_aux (raw : string) :
  UT803.read (Some raw) = Ok None <->
  decode_ascii raw = Ok raw /\ String.length raw <> 11%nat.
Proof.
  split.
  - intros H. unfold UT803.read in H.
    assert (Hdec : decode_ascii raw = Ok raw).
    { unfold decode_ascii in *.
      destruct (forallb _ _); [reflexivity | discriminate H]. }
    split; [exact Hdec|].
    rewrite Hdec in H. cbn [bind] in H.
    intros Hlen. rewrite Hlen in H.
    destruct (String.eqb raw "") eqn:Eempty;
      [apply String.eqb_eq in Eempty; rewrite Eempty in Hlen;
       discriminate Hlen|].
    simpl in H.
    destruct (UT803.read_frame raw); discriminate H.
  - intros [Hdec Hlen].
    unfold UT803.read. rewrite Hdec. cbn [bind].
    destruct (String.eqb raw ""); [reflexivity|].
    destruct (Nat.eqb_spec (String.length raw) 11); [contradiction|].
    reflexivity.
Qed.

(** ** The kind and the magnitude of a frame *)

(** [read] on a frame that [frame_ok_elsewhere] accepts: what [int()]
    makes of the four characters decides. *)
Lemma read_ok_elsewhere (raw : string) :
  frame_ok_elsewhere raw = true ->
  exists c0 d1 d2 d3 d4 c5 c6 c7 c8 t9 t10 kind,
    raw = string_of_list_ascii [c0; d1; d2; d3; d4; c5; c6; c7; c8; t9; t10] /\
    str_slice raw 1 5 = string_of_list_ascii [d1; d2; d3; d4] /\
    dict_find UT803.measurement_type_table (ord c5 - 48) = Some kind /\
    match parse_int [d1; d2; d3; d4] with
    | Some n =>
        exists L,
          UT803.read_frame raw = Ok L /\
          UT803.l_meas_type L = kind /\
          UT803.l_base_value L = n /\
          UT803.read (Some raw)
          = Ok (Some (UT803.l_value L, UT803.l_unit L, UT803.l_meas_type L,
                      UT803.l_flags_dict L))
    | None =>
        UT803.read (Some raw)
        = Raise (ValueError (string_of_list_ascii [d1; d2; d3; d4]))
    end.
Proof.
  unfold frame_ok_elsewhere. intros H.
  apply andb_true_iff in H. destruct H as [Hascii H].
  assert (Hdec : decode_ascii raw = Ok raw)
    by (unfold decode_ascii; rewrite Hascii; reflexivity).
  rewrite <- (string_of_list_ascii_of_string raw) in Hdec |- *.
  destruct (list_ascii_of_string raw)
    as [|c0 [|d1 [|d2 [|d3 [|d4 [|c5 [|c6 [|c7 [|c8 [|t9 [|t10 [|x l]]]]]]]]]]]];
    try discriminate H.
  do 5 (apply andb_true_iff in H; destruct H as [H ?]).
  destruct (dict_find UT803.measurement_type_table (ord c5 - 48))
    as [kind|] eqn:Hkind;
    [|unfold dict_mem in *;
      match goal with
      | Hm : match dict_find _ _ with _ => _ end = true |- _ =>
          rewrite Hkind in Hm; discriminate Hm
      end].
  exists c0, d1, d2, d3, d4, c5, c6, c7, c8, t9, t10, kind.
  split; [reflexivity|]. split; [reflexivity|]. split; [exact Hkind|].
  rewrite (read_11 _ _ _ _ _ _ _ _ _ _ _ Hdec), read_frame_11.
  rewrite !chrToInt_nibble_char.
  repeat match goal with
         | Hn : nibble_char ?c = true |- _ => rewrite Hn; clear Hn
         end.
  cbn [bind]. unfold dict_get. rewrite Hkind. cbn [bind].
  destruct (getUnit_total (ord c5 - 48) (ord c6 - 48)
              [ord c7 - 48; ord c8 - 48]) as [u Hu].
  rewrite Hu. cbn [bind].
  unfold py_int. rewrite list_ascii_of_string_of_list_ascii.
  destruct (parse_int [d1; d2; d3; d4]) as [n|]; cbn [bind].
  - eexists. split; [reflexivity|]. split; [reflexivity|].
    split; reflexivity.
  - reflexivity.
Qed.

(** C4: the nibble at position 5 is mapped to the measurement kind by the
    table 1 -> diode, 2 -> frequency, 3 -> resistance, 4 -> temperature,
    5 -> continuity, 6 -> capacitance, 9 -> current, 11 -> voltage,
    13 -> current, 14 -> hFE, 15 -> current, and by nothing else: a
    reading carries the kind the table gives for that nibble; a frame
    with nothing wrong elsewhere whose nibble is in the table is decoded
    to a reading of the kind the table gives; and for every other nibble
    value [read] raises [KeyError] on that value and returns no
    reading. *)
Theorem measurement_kind_table :
  (dict_find UT803.measurement_type_table 1 = Some "diode" /\
   dict_find UT803.measurement_type_table 2 = Some "frequency" /\
   dict_find UT803.measurement_type_table 3 = Some "resistance" /\
   dict_find UT803.measurement_type_table 4 = Some "temperature" /\
   dict_find UT803.measurement_type_table 5 = Some "continuity" /\
   dict_find UT803.measurement_type_table 6 = Some "capacitance" /\
   dict_find UT803.measurement_type_table 9 = Some "current" /\
   dict_find UT803.measurement_type_table 11 = Some "voltage" /\
   dict_find UT803.measurement_type_table 13 = Some "current" /\
   dict_find UT803.measurement_type_table 14 = Some "hFE" /\
   dict_find UT803.measurement_type_table 15 = Some "current") /\
  (forall (raw : string) (v : F64.float) (unit kind : string)
          (fd : list (string * bool)),
      UT803.read (Some raw) = Ok (Some (v, unit, kind, fd)) ->
      exists c5 m,
        str_index raw 5 = Ok c5 /\ chrToInt c5 = Ok m /\
        dict_find UT803.measurement_type_table m = Some kind) /\
  (forall (raw : string) (c5 : ascii) (kind : string),
      frame_ok raw = true ->
      str_index raw 5 = Ok c5 ->
      dict_find UT803.measurement_type_table (ord c5 - 48) = Some kind ->
      chrToInt c5 = Ok (ord c5 - 48) /\
      exists v unit fd,
        UT803.read (Some raw) = Ok (Some (v, unit, kind, fd))) /\
  (forall (raw : string) (c5 : ascii) (m : Z),
      decode_ascii raw = Ok raw ->
      String.length raw = 11%nat ->
      str_index raw 5 = Ok c5 ->
      chrToInt c5 = Ok m ->
      ~ In m [1; 2; 3; 4; 5; 6; 9; 11; 13; 14; 15] ->
      UT803.read (Some raw) = Raise (KeyError m)).
Proof.
  split; [repeat split; reflexivity|]. split; [|split].
  - intros raw v unit kind fd H.
    destruct (read_inv raw _ H) as [_ [L [HL Hr]]].
    inversion Hr; subst; clear Hr.
    destruct (read_frame_inv raw L HL)
      as (c5 & c0 & f0 & f1 & f2 & H5 & Hm & Hk & _).
    exists c5, (UT803.l_measurement L). repeat split; try assumption.
    unfold dict_get in Hk.
    destruct (dict_find UT803.measurement_type_table (UT803.l_measurement L));
      inversion Hk; reflexivity.
  - intros raw c5 kind Hok H5 Hkind.
    assert (Hel : frame_ok_elsewhere raw = true /\
                  exists n,
                    parse_int (list_ascii_of_string (str_slice raw 1 5))
                    = Some n).
    { unfold frame_ok in Hok. unfold frame_ok_elsewhere.
      apply andb_true_iff in Hok. destruct Hok as [Hascii Hok].
      rewrite Hascii. cbn [andb].
      rewrite <- (string_of_list_ascii_of_string raw).
      destruct (list_ascii_of_string raw)
        as [|c0 [|d1 [|d2 [|d3 [|d4 [|x5 [|c6 [|c7 [|c8 [|t9 [|t10 [|x l]]]]]]]]]]]];
        try discriminate Hok.
      apply andb_true_iff in Hok. destruct Hok as [Hok Hp].
      split; [exact Hok|].
      destruct (parse_int [d1; d2; d3; d4]) as [n|] eqn:Hn;
        [|discriminate Hp].
      exists n. exact Hn. }
    destruct Hel as [Hel [n Hn]].
    destruct (read_ok_elsewhere raw Hel)
      as (c0 & d1 & d2 & d3 & d4 & x5 & c6 & c7 & c8 & t9 & t10 & kind'
          & Hraw & Hslice & Hkind' & Hcase).
    rewrite Hslice, list_ascii_of_string_of_list_ascii in Hn.
    rewrite Hn in Hcase.
    destruct Hcase as (L & HL & Hmt & Hb & Hread).
    assert (Hx : x5 = c5).
    { rewrite Hraw in H5. cbn in H5. congruence. }
    subst x5.
    assert (Hnib : nibble_char c5 = true).
    { destruct (read_frame_inv raw L HL)
        as (y5 & y0 & f0 & f1 & f2 & G5 & Gm & _).
      assert (y5 = c5) by congruence. subst y5.
      rewrite chrToInt_nibble_char in Gm.
      destruct (nibble_char c5); [reflexivity | discriminate Gm]. }
    split; [rewrite chrToInt_nibble_char, Hnib; reflexivity|].
    assert (Hkk : kind' = kind) by congruence.
    rewrite Hread, Hmt, Hkk. eexists. eexists. eexists. reflexivity.
  - intros raw c5 m Hdec Hlen H5 Hm Hnot.
    unfold UT803.read. rewrite Hdec. simpl.
    destruct (String.eqb_spec raw "") as [->|_]; [discriminate Hlen|].
    rewrite Hlen. simpl.
    unfold UT803.read_frame. rewrite H5. simpl. rewrite Hm. simpl.
    assert (Hnone : dict_get UT803.measurement_type_table m
                    = Raise (KeyError m)).
    { unfold dict_get, UT803.measurement_type_table, dict_find.
      repeat match goal with
             | |- context [?a =? ?b] =>
                 destruct (Z.eqb_spec a b);
                 [exfalso; apply Hnot; subst; simpl; tauto|]
             end.
      reflexivity. }
    rewrite Hnone. reflexivity.
Qed.

Lemma measurement_kind_table_witness :
  UT803.read (Some frame_kind_7) = Raise (KeyError 7) /\
  (exists v unit fd,
      UT803.read (Some frame_voltage) = Ok (Some (v, unit, "voltage", fd))) /\
  (exists v unit fd,
      UT803.read (Some frame_capacitance)
      = Ok (Some (v, unit, "capacitance", fd))).
Proof.
  split; [|split].
  - apply (proj2 (proj2 (proj2 measurement_kind_table))
             frame_kind_7 "7"%char 7).
    + reflexivity.
    + reflexivity.
    + reflexivity.
    + reflexivity.
    + simpl. intros H.
      repeat (destruct H as [H|H]; [discriminate H|]). exact H.
  - apply (proj1 (proj2 (proj2 measurement_kind_table))
             frame_voltage ";"%char "voltage"); reflexivity.
  - apply (proj1 (proj2 (proj2 measurement_kind_table))
             frame_capacitance "6"%char "capacitance"); reflexivity.
Defined.

(** C2, as stated, fails: a frame with a non-digit at one of the positions
    1 to 4 is not always rejected. [frame_space] has a space at position 1
    and [read] returns a reading for it. *)
Lemma non_digit_magnitude_accepted :
  ~ (forall raw : string,
        String.length raw = 11%nat ->
        (exists (i : nat) (c : ascii),
            (1 <= i)%nat /\ (i <= 4)%nat /\
            String.get i raw = Some c /\ is_digit c = false) ->
        exists e, UT803.read (Some raw) = Raise e).
Proof.
  intros H.
  destruct (H frame_space eq_refl) as [e He].
  - exists 1%nat, " "%char. repeat split; (reflexivity || lia).
  - vm_compute in He. discriminate He.
Qed.

(** C2, amended: for every frame that [read] decodes, the characters at
    positions 1 to 4 are parsed by Python's [int()]; the result is between
    -999 and 9999, and when the four characters are decimal digits it is
    their unsigned base-10 value, between 0 and 9999. A space, a plus sign
    or a minus sign at position 1 followed by three digits is accepted by
    [int()] and, in a frame with nothing wrong elsewhere, by [read], which
    returns a reading made from the value of the three digits, negated
    after a minus sign. Decoding fails whenever [int()] rejects the four
    characters: [read_frame] and [read] raise, and in a frame with nothing
    wrong elsewhere [read] raises [ValueError] on the four characters, as
    for [frame_letter]. *)
Theorem magnitude_parse :
  (forall (line : string) (L : UT803.locals),
      UT803.read_frame line = Ok L ->
      exists a b c d,
        String.get 1 line = Some a /\ String.get 2 line = Some b /\
        String.get 3 line = Some c /\ String.get 4 line = Some d /\
        parse_int [a; b; c; d] = Some (UT803.l_base_value L) /\
        -999 <= UT803.l_base_value L <= 9999 /\
        (is_digit a = true -> is_digit b = true ->
         is_digit c = true -> is_digit d = true ->
         UT803.l_base_value L
         = 1000 * (ord a - 48) + 100 * (ord b - 48)
           + 10 * (ord c - 48) + (ord d - 48) /\
         0 <= UT803.l_base_value L <= 9999)) /\
  (forall b c d : ascii,
      is_digit b = true -> is_digit c = true -> is_digit d = true ->
      let n := 100 * (ord b - 48) + 10 * (ord c - 48) + (ord d - 48) in
      parse_int [" "%char; b; c; d] = Some n /\
      parse_int ["+"%char; b; c; d] = Some n /\
      parse_int ["-"%char; b; c; d] = Some (- n)) /\
  (forall (line : string) (a b c d : ascii),
      String.get 1 line = Some a -> String.get 2 line = Some b ->
      String.get 3 line = Some c -> String.get 4 line = Some d ->
      parse_int [a; b; c; d] = None ->
      exists e, UT803.read_frame line = Raise e) /\
  UT803.read (Some frame_letter) = Raise (ValueError "a234") /\
  (forall (raw : string) (s b c d : ascii),
      frame_ok_elsewhere raw = true ->
      str_slice raw 1 5 = string_of_list_ascii [s; b; c; d] ->
      s = " "%char \/ s = "+"%char \/ s = "-"%char ->
      is_digit b = true -> is_digit c = true -> is_digit d = true ->
      let n := 100 * (ord b - 48) + 10 * (ord c - 48) + (ord d - 48) in
      exists L,
        UT803.read_frame raw = Ok L /\
        UT803.l_base_value L = (if Ascii.eqb s "-"%char then - n else n) /\
        (exists f0,
            list_index (UT803.l_flags L) 0 = Ok f0 /\
            UT803.l_value L
            = UT803.value_of (UT803.l_base_value L) (UT803.l_exponent L)
                (Z.land f0 4)) /\
        UT803.read (Some raw)
        = Ok (Some (UT803.l_value L, UT803.l_unit L, UT803.l_meas_type L,
                    UT803.l_flags_dict L))) /\
  (forall raw : string,
      frame_ok_elsewhere raw = true ->
      parse_int (list_ascii_of_string (str_slice raw 1 5)) = None ->
      UT803.read (Some raw) = Raise (ValueError (str_slice raw 1 5))) /\
  (forall raw : string,
      decode_ascii raw = Ok raw ->
      String.length raw = 11%nat ->
      parse_int (list_ascii_of_string (str_slice raw 1 5)) = None ->
      exists e, UT803.read (Some raw) = Raise e).
Proof.
  assert (Hinv : forall line L,
             UT803.read_frame line = Ok L ->
             exists a b c d,
               String.get 1 line = Some a /\ String.get 2 line = Some b /\
               String.get 3 line = Some c /\ String.get 4 line = Some d /\
               str_slice line 1 5 = string_of_list_ascii [a; b; c; d] /\
               parse_int [a; b; c; d] = Some (UT803.l_base_value L)).
  { intros line L HL.
    destruct (read_frame_inv line L HL)
      as (c5 & c0 & f0 & f1 & f2 & H5 & _ & _ & _ & _ & _ & _ & _ & _ & _ & _
          & Hb & _).
    destruct (slice_1_5 line c5 H5) as (a & b & c & d & G1 & G2 & G3 & G4 & Hs).
    exists a, b, c, d. repeat split; try assumption.
    rewrite Hs in Hb. unfold py_int in Hb. cbn [list_ascii_of_string] in Hb.
    destruct (parse_int [a; b; c; d]); inversion Hb; reflexivity. }
  split; [|split; [|split; [|split; [|split; [|split]]]]].
  - intros line L HL.
    destruct (Hinv line L HL) as (a & b & c & d & G1 & G2 & G3 & G4 & _ & Hp).
    exists a, b, c, d.
    do 5 (split; [assumption|]).
    split; [apply (parse_int_4_bound a b c d _ Hp)|].
    intros Ha Hb Hc Hd.
    pose proof (parse_int_4_digits a b c d Ha Hb Hc Hd) as Hd4.
    assert (Hv : UT803.l_base_value L
                 = 1000 * (ord a - 48) + 100 * (ord b - 48)
                   + 10 * (ord c - 48) + (ord d - 48)) by congruence.
    split; [exact Hv|]. rewrite Hv.
    apply is_digit_true in Ha, Hb, Hc, Hd. lia.
  - intros b c d Hb Hc Hd. apply parse_int_sign_digits; assumption.
  - intros line a b c d G1 G2 G3 G4 Hnone.
    destruct (UT803.read_frame line) as [L|e] eqn:HL; [|exists e; reflexivity].
    exfalso.
    destruct (Hinv line L HL)
      as (a' & b' & c' & d' & G1' & G2' & G3' & G4' & _ & Hp).
    congruence.
  - vm_compute. reflexivity.
  - intros raw s b c d Hel Hslice Hs Hb Hc Hd n.
    destruct (read_ok_elsewhere raw Hel)
      as (c0 & d1 & d2 & d3 & d4 & c5 & c6 & c7 & c8 & t9 & t10 & kind
          & Hraw & Hslice' & Hkind & Hcase).
    rewrite Hslice in Hslice'.
    assert (Hchars : [s; b; c; d] = [d1; d2; d3; d4]).
    { rewrite <- (list_ascii_of_string_of_list_ascii [s; b; c; d]),
        <- (list_ascii_of_string_of_list_ascii [d1; d2; d3; d4]).
      rewrite Hslice'. reflexivity. }
    rewrite <- Hchars in Hcase.
    destruct (parse_int_sign_digits b c d Hb Hc Hd) as (Hsp & Hpl & Hmi).
    fold n in Hsp, Hpl, Hmi.
    assert (Hp : parse_int [s; b; c; d]
                 = Some (if Ascii.eqb s "-"%char then - n else n)).
    { destruct Hs as [-> | [-> | ->]]; assumption. }
    rewrite Hp in Hcase.
    destruct Hcase as (L & HL & _ & Hbase & Hread).
    exists L. split; [exact HL|]. split; [exact Hbase|].
    split; [|exact Hread].
    destruct (read_frame_inv raw L HL)
      as (y5 & y0 & f0 & f1 & f2 & _ & _ & _ & _ & Hf0 & _ & _ & _ & _ & _
          & _ & _ & Hval).
    exists f0. split; [exact Hf0 | exact Hval].
  - intros raw Hel Hnone.
    destruct (read_ok_elsewhere raw Hel)
      as (c0 & d1 & d2 & d3 & d4 & c5 & c6 & c7 & c8 & t9 & t10 & kind
          & Hraw & Hslice & Hkind & Hcase).
    rewrite Hslice, list_ascii_of_string_of_list_ascii in Hnone.
    rewrite Hnone in Hcase. rewrite Hslice. exact Hcase.
  - intros raw Hdec Hlen Hnone.
    destruct (UT803.read (Some raw)) as [[r|]|e] eqn:Hread.
    + exfalso. destruct r as [[[v u] k] fd].
      destruct (read_inv raw _ Hread) as [_ [L [HL _]]].
      destruct (Hinv raw L HL)
        as (a & b & c & d & _ & _ & _ & _ & Hslice & Hp).
      rewrite Hslice, list_ascii_of_string_of_list_ascii in Hnone.
      congruence.
    + exfalso. apply read_None_iff_aux in Hread.
      destruct Hread as [_ Hne]. contradiction.
    + exists e. reflexivity.
Qed.

Lemma magnitude_parse_witness :
  (exists L, UT803.read_frame frame_minus = Ok L /\
     -999 <= UT803.l_base_value L <= 9999 /\
     exists e, UT803.read_frame frame_letter = Raise e) /\
  (exists L,
      UT803.read_frame frame_minus = Ok L /\
      UT803.l_base_value L = -123 /\
      UT803.read (Some frame_minus)
      = Ok (Some (UT803.l_value L, UT803.l_unit L, UT803.l_meas_type L,
                  UT803.l_flags_dict L))) /\
  UT803.read (Some "4a234;000xy") = Raise (ValueError "a234") /\
  (exists e, UT803.read (Some "xa234;000xy") = Raise e).
Proof.
  split; [|split; [|split]].
  - destruct (UT803.read_frame frame_minus) as [L|e] eqn:E;
      [|vm_compute in E; discriminate E].
    exists L. split; [reflexivity|].
    destruct (proj1 magnitude_parse frame_minus L E)
      as (a & b & c & d & _ & _ & _ & _ & _ & Hb & _).
    split; [exact Hb|].
    apply (proj1 (proj2 (proj2 magnitude_parse)) frame_letter
             "a"%char "2"%char "3"%char "4"%char);
      reflexivity.
  - destruct (proj1 (proj2 (proj2 (proj2 (proj2 magnitude_parse))))
                frame_minus "-"%char "1"%char "2"%char "3"%char)
      as (L & HL & Hb & _ & Hread);
      try reflexivity.
    + right. right. reflexivity.
    + exists L. split; [exact HL|]. split; [exact Hb | exact Hread].
  - apply (proj1 (proj2 (proj2 (proj2 (proj2 (proj2 magnitude_parse)))))
             "4a234;000xy"); reflexivity.
  - apply (proj2 (proj2 (proj2 (proj2 (proj2 (proj2 magnitude_parse)))))
             "xa234;000xy"); reflexivity.
Defined.

(** X4: [read] returns [None] exactly when the connection is closed or
    the line is ASCII and its length is not 11; such a line is dropped
    whatever its characters are, and an ASCII line of length 11 is never
    dropped silently: it gives a reading or an exception. *)
Theorem read_None_iff (conn : option string) :
  UT803.read conn = Ok None <->
  conn = None \/
  exists raw, conn = Some raw /\ decode_ascii raw = Ok raw /\
              String.length raw <> 11%nat.
Proof.
  destruct conn as [raw|].
  - rewrite read_None_iff_aux. split.
    + intros [Hdec Hlen]. right. exists raw. auto.
    + intros [H|(raw' & Heq & Hdec & Hlen)]; [discriminate H|].
      inversion Heq; subst. auto.
  - split; [intros _; left; reflexivity | reflexivity].
Qed.

Lemma read_None_iff_witness :
  UT803.read (Some "garbage") = Ok None.
Proof.
  apply (proj2 (read_None_iff (Some "garbage"))).
  right. exists "garbage".
  split; [reflexivity|]. split; [reflexivity|]. discriminate.
Defined.

(** X5: the exceptions of [read]. It raises [UnicodeDecodeError] exactly
    when the line has a byte above 127, whatever the length of the line.
    Any other exception is the [TypeError] of [chrToInt], the [KeyError]
    of the kind table on a nibble that is not one of its keys, or the
    [ValueError] of [int()] on the characters at positions 1 to 4; [read]
    never raises [IndexError]. *)
Theorem read_exceptions (raw : string) :
  (UT803.read (Some raw) = Raise UnicodeDecodeError <->
   decode_ascii raw <> Ok raw) /\
  (forall e, UT803.read (Some raw) = Raise e ->
     e = UnicodeDecodeError \/
     e = TypeError "Invalid numeric character" \/
     (exists m, e = KeyError m /\ 0 <= m <= 15 /\ ~ In m unit_codes) \/
     e = ValueError (str_slice raw 1 5)).
Proof.
  assert (Hrest : forall e,
             decode_ascii raw = Ok raw ->
             UT803.read (Some raw) = Raise e ->
             e = TypeError "Invalid numeric character" \/
             (exists m, e = KeyError m /\ 0 <= m <= 15 /\ ~ In m unit_codes) \/
             e = ValueError (str_slice raw 1 5)).
  { intros e Hdec H.
    assert (Hlen : String.length raw = 11%nat).
    { destruct (Nat.eq_dec (String.length raw) 11) as [|Hne]; [assumption|].
      assert (Hn : UT803.read (Some raw) = Ok None).
      { apply (proj2 (read_None_iff_aux raw)). split; assumption. }
      rewrite Hn in H. discriminate H. }
    destruct (length_11 raw Hlen)
      as (c0 & d1 & d2 & d3 & d4 & c5 & c6 & c7 & c8 & t9 & t10 & Hraw).
    subst raw. rewrite (read_11 _ _ _ _ _ _ _ _ _ _ _ Hdec) in H.
    rewrite read_frame_11 in H.
    destruct (chrToInt c5) as [m|e5] eqn:E5; cbn [bind] in H.
    2:{ rewrite chrToInt_nibble_char in E5.
        destruct (nibble_char c5); inversion E5; subst.
        injection H as <-. left. reflexivity. }
    destruct (dict_get UT803.measurement_type_table m) as [k|ek] eqn:Ek;
      cbn [bind] in H.
    2:{ right. left. exists m. injection H as <-.
        unfold dict_get in Ek.
        destruct (dict_find UT803.measurement_type_table m) eqn:Ef;
          [discriminate Ek|].
        injection Ek as <-. split; [reflexivity|].
        split; [apply (chrToInt_Ok c5 m E5)|].
        intros Hin. apply table_keys_iff in Hin.
        unfold dict_mem in Hin. rewrite Ef in Hin. discriminate Hin. }
    destruct (chrToInt c6) as [f0|e6] eqn:E6; cbn [bind] in H.
    2:{ rewrite chrToInt_nibble_char in E6.
        destruct (nibble_char c6); inversion E6; subst.
        injection H as <-. left. reflexivity. }
    destruct (chrToInt c7) as [f1|e7] eqn:E7; cbn [bind] in H.
    2:{ rewrite chrToInt_nibble_char in E7.
        destruct (nibble_char c7); inversion E7; subst.
        injection H as <-. left. reflexivity. }
    destruct (chrToInt c8) as [f2|e8] eqn:E8; cbn [bind] in H.
    2:{ rewrite chrToInt_nibble_char in E8.
        destruct (nibble_char c8); inversion E8; subst.
        injection H as <-. left. reflexivity. }
    destruct (getUnit_total m f0 [f1; f2]) as [u Hu].
    rewrite Hu in H. cbn [bind] in H.
    destruct (chrToInt c0) as [sel|e0] eqn:E0; cbn [bind] in H.
    2:{ rewrite chrToInt_nibble_char in E0.
        destruct (nibble_char c0); inversion E0; subst.
        injection H as <-. left. reflexivity. }
    unfold py_int in H.
    destruct (parse_int _); cbn [bind] in H; [discriminate H|].
    injection H as <-. right. right. reflexivity. }
  split.
  - split.
    + intros H Hdec.
      destruct (Hrest _ Hdec H) as [He|[(m & He & _)|He]]; discriminate He.
    + intros Hdec. unfold UT803.read. unfold decode_ascii in *.
      destruct (forallb _ _); [contradiction Hdec; reflexivity|reflexivity].
  - intros e H.
    destruct (decode_ascii raw) as [raw'|e'] eqn:Hdec.
    + assert (raw' = raw).
      { unfold decode_ascii in Hdec.
        destruct (forallb _ _); inversion Hdec; reflexivity. }
      subst raw'. right. apply (Hrest e eq_refl H).
    + left. unfold UT803.read in H. rewrite Hdec in H. cbn [bind] in H.
      unfold decode_ascii in Hdec.
      destruct (forallb _ _); inversion Hdec; subst.
      injection H as <-. reflexivity.
Qed.

Lemma read_exceptions_witness :
  KeyError 7 = UnicodeDecodeError \/
  KeyError 7 = TypeError "Invalid numeric character" \/
  (exists m, KeyError 7 = KeyError m /\ 0 <= m <= 15 /\ ~ In m unit_codes) \/
  KeyError 7 = ValueError (str_slice frame_kind_7 1 5).
Proof.
  apply (proj2 (read_exceptions frame_kind_7) (KeyError 7)).
  vm_compute. reflexivity.
Defined.

(** X6: [read] returns a reading exactly for the lines that [frame_ok]
    accepts: eleven ASCII characters, with nibble characters at positions
    0, 5, 6, 7 and 8, a kind nibble among the keys of the kind table, and
    at positions 1 to 4 four characters that [int()] accepts. *)
Theorem read_succeeds_iff (raw : string) :
  (exists r, UT803.read (Some raw) = Ok (Some r)) <-> frame_ok raw = true.
Proof.
  split.
  - intros [r H].
    destruct (read_Some_inv raw r H)
      as (c0 & d1 & d2 & d3 & d4 & c5 & c6 & c7 & c8 & t9 & t10 & m & k & f0
          & f1 & f2 & u & sel & b & Hraw & Hdec & H5 & Hk & H6 & H7 & H8 & _
          & H0 & Hb & _).
    unfold frame_ok.
    assert (Hascii : forallb (fun c => ord c <? 128)
                       (list_ascii_of_string raw) = true).
    { unfold decode_ascii in Hdec.
      destruct (forallb _ _); [reflexivity | discriminate Hdec]. }
    rewrite Hascii. rewrite Hraw, list_ascii_of_string_of_list_ascii.
    rewrite chrToInt_nibble_char in H5, H6, H7, H8, H0.
    destruct (nibble_char c5); [|discriminate H5]. injection H5 as <-.
    destruct (nibble_char c6); [|discriminate H6].
    destruct (nibble_char c7); [|discriminate H7].
    destruct (nibble_char c8); [|discriminate H8].
    destruct (nibble_char c0); [|discriminate H0].
    unfold dict_get in Hk. unfold dict_mem.
    destruct (dict_find UT803.measurement_type_table (ord c5 - 48));
      [|discriminate Hk].
    unfold py_int in Hb. rewrite list_ascii_of_string_of_list_ascii in Hb.
    destruct (parse_int [d1; d2; d3; d4]); [reflexivity | discriminate Hb].
  - unfold frame_ok. intros H.
    apply andb_true_iff in H. destruct H as [Hascii H].
    assert (Hdec : decode_ascii raw = Ok raw)
      by (unfold decode_ascii; rewrite Hascii; reflexivity).
    rewrite <- (string_of_list_ascii_of_string raw) in Hdec |- *.
    destruct (list_ascii_of_string raw)
      as [|c0 [|d1 [|d2 [|d3 [|d4 [|c5 [|c6 [|c7 [|c8 [|t9 [|t10 [|x l]]]]]]]]]]]];
      try discriminate H.
    do 6 (apply andb_true_iff in H; destruct H as [H ?]).
    rewrite (read_11 _ _ _ _ _ _ _ _ _ _ _ Hdec), read_frame_11.
    rewrite !chrToInt_nibble_char.
    repeat match goal with
           | Hn : nibble_char ?c = true |- _ => rewrite Hn; clear Hn
           end.
    cbn [bind].
    match goal with
    | Hm : dict_mem _ _ = true |- _ =>
        unfold dict_mem in Hm; unfold dict_get;
        destruct (dict_find UT803.measurement_type_table (ord c5 - 48));
        [clear Hm | discriminate Hm]
    end.
    cbn [bind].
    destruct (getUnit_total (ord c5 - 48) (ord c6 - 48)
                [ord c7 - 48; ord c8 - 48]) as [u Hu].
    rewrite Hu. cbn [bind].
    unfold py_int. rewrite list_ascii_of_string_of_list_ascii.
    destruct (parse_int [d1; d2; d3; d4]); [|discriminate].
    cbn [bind]. eexists. reflexivity.
Qed.

Lemma read_succeeds_iff_witness :
  exists r, UT803.read (Some frame_minus) = Ok (Some r).
Proof.
  apply (proj2 (read_succeeds_iff frame_minus)). vm_compute. reflexivity.
Defined.

(** X7: the two characters at positions 9 and 10, the line terminator,
    are never looked at: two ASCII lines of eleven characters that agree
    on their first nine characters give the same result, be it a reading
    or an exception. *)
Theorem terminator_ignored (payload t1 t2 : string) :
  String.length payload = 9%nat ->
  String.length t1 = 2%nat -> String.length t2 = 2%nat ->
  decode_ascii (payload ++ t1) = Ok (payload ++ t1) ->
  decode_ascii (payload ++ t2) = Ok (payload ++ t2) ->
  UT803.read (Some (payload ++ t1)) = UT803.read (Some (payload ++ t2)).
Proof.
  intros Hp H1 H2.
  destruct payload as [|c0 [|d1 [|d2 [|d3 [|d4 [|c5 [|c6 [|c7 [|c8 [|x p]]]]]]]]]];
    try discriminate Hp.
  destruct t1 as [|a9 [|a10 [|x t1]]]; try discriminate H1.
  destruct t2 as [|b9 [|b10 [|x t2]]]; try discriminate H2.
  cbn [String.append]. intros D1 D2.
  pose proof (read_11 c0 d1 d2 d3 d4 c5 c6 c7 c8 a9 a10 D1) as R1.
  pose proof (read_11 c0 d1 d2 d3 d4 c5 c6 c7 c8 b9 b10 D2) as R2.
  pose proof (read_frame_11 c0 d1 d2 d3 d4 c5 c6 c7 c8 a9 a10) as F1.
  pose proof (read_frame_11 c0 d1 d2 d3 d4 c5 c6 c7 c8 b9 b10) as F2.
  cbn [string_of_list_ascii] in R1, R2, F1, F2.
  rewrite R1, R2, F1, F2. reflexivity.
Qed.

Lemma terminator_ignored_witness :
  UT803.read (Some ("41234;000" ++ CRLF)) = UT803.read (Some ("41234;000" ++ "zz")).
Proof.
  apply (terminator_ignored "41234;000" CRLF "zz"); reflexivity.
Defined.

(** ** The shape of a decoded value *)

Lemma of_int_sign (b : Z) :
  -999 <= b <= 9999 -> b <> 0 ->
  signed_normal (b <? 0) (F64.of_int b) = true.
Proof.
  intros Hb Hnz.
  assert (Hpos : all_from (Z.to_nat 9999) 1
                   (fun z => signed_normal (z <? 0) (F64.of_int z)) = true)
    by (vm_compute; reflexivity).
  assert (Hneg : all_from (Z.to_nat 999) (-999)
                   (fun z => signed_normal (z <? 0) (F64.of_int z)) = true)
    by (vm_compute; reflexivity).
  destruct (Z.ltb_spec 0 b).
  - apply (all_from_spec _ _ _ Hpos). lia.
  - apply (all_from_spec _ _ _ Hneg). lia.
Qed.

Lemma pow10_sign (e : Z) :
  -12 <= e <= 15 -> signed_normal false (F64.pow10 e) = true.
Proof.
  intros He.
  assert (H : all_from 28 (-12)
                (fun z => signed_normal false (F64.pow10 z)) = true)
    by (vm_compute; reflexivity).
  apply (all_from_spec _ _ _ H). lia.
Qed.

Lemma signed_normal_inv (s : bool) (x : F64.float) :
  signed_normal s x = true ->
  exists m e, x = S754_finite s m e /\
    digits2_pos m = 53%positive /\ -1074 <= e <= 971.
Proof.
  destruct x as [s'|s'| |s' m e]; cbn [signed_normal]; try discriminate.
  intros H. apply andb_true_iff in H. destruct H as [H H4].
  apply andb_true_iff in H. destruct H as [H H3].
  apply andb_true_iff in H. destruct H as [H1 H2].
  apply Bool.eqb_prop in H1. apply Pos.eqb_eq in H2.
  apply Z.leb_le in H3. apply Z.leb_le in H4.
  subst s'. exists m, e. repeat split; assumption.
Qed.

(** Lines 103 to 105 give a zero or a normal double, whose sign bit is
    the sign of the magnitude flipped by the sign flag. *)
Lemma value_of_shape (b e sign : Z) :
  -999 <= b <= 9999 -> -12 <= e <= 15 ->
  (b = 0 -> UT803.value_of b e sign = S754_zero (truthy sign)) /\
  (b <> 0 ->
   exists m e',
     UT803.value_of b e sign
     = S754_finite (xorb (b <? 0) (truthy sign)) m e' /\
     digits2_pos m = 53%positive /\ -1074 <= e' <= 971).
Proof.
  intros Hb He. unfold UT803.value_of.
  destruct (normal_in_inv _ _ _ (pow10_normal e He))
    as (sy & my & ey & Ey & Dy & By).
  destruct (signed_normal_inv _ _ (pow10_sign e He))
    as (my' & ey' & Ey' & _).
  rewrite Ey in Ey'. injection Ey' as -> _ _.
  rewrite Ey. split.
  - intros ->. destruct (truthy sign); reflexivity.
  - intros Hnz.
    destruct (normal_in_inv _ _ _ (of_int_normal b Hb Hnz))
      as (sx & mx & ex & Ex & Dx & Bx).
    destruct (signed_normal_inv _ _ (of_int_sign b Hb Hnz))
      as (mx' & ex' & Ex' & _).
    rewrite Ex in Ex'. injection Ex' as -> _ _.
    rewrite Ex.
    destruct (mul_normal (b <? 0) false mx my ex ey Dx Dy)
      as (m & e' & Hp & Dm & Bm); [lia|].
    rewrite Hp. rewrite xorb_false_r.
    destruct (truthy sign).
    + exists m, e'. rewrite (mul_minus_one _ m e' Dm Bm).
      rewrite xorb_true_r. repeat split; (assumption || lia).
    + exists m, e'. rewrite xorb_false_r. repeat split; (assumption || lia).
Qed.

(** Magnitude, sign nibble and value of a reading. *)
Lemma read_value_shape (raw : string) (r : UT803.reading) :
  UT803.read (Some raw) = Ok (Some r) ->
  exists b c6 f0,
    py_int (str_slice raw 1 5) = Ok b /\
    str_index raw 6 = Ok c6 /\ chrToInt c6 = Ok f0 /\
    (b = 0 -> fst (fst (fst r)) = S754_zero (Z.testbit f0 2)) /\
    (b <> 0 ->
     exists m e,
       fst (fst (fst r)) = S754_finite (xorb (b <? 0) (Z.testbit f0 2)) m e /\
       digits2_pos m = 53%positive /\ -1074 <= e <= 971).
Proof.
  intros H.
  destruct (read_Some_inv raw r H)
    as (c0 & d1 & d2 & d3 & d4 & c5 & c6 & c7 & c8 & t9 & t10 & m & k & f0
        & f1 & f2 & u & sel & b & Hraw & _ & _ & _ & H6 & _ & _ & _ & H0 & Hb
        & Hr).
  subst raw r. cbn [fst].
  exists b, c6, f0.
  split; [exact Hb|]. split; [reflexivity|]. split; [exact H6|].
  rewrite <- truthy_land_4.
  apply value_of_shape.
  - unfold py_int in Hb. rewrite list_ascii_of_string_of_list_ascii in Hb.
    destruct (parse_int [d1; d2; d3; d4]) as [n|] eqn:Hp; [|discriminate Hb].
    injection Hb as <-. apply (parse_int_4_bound d1 d2 d3 d4 n Hp).
  - apply exponent_of_range. apply (chrToInt_Ok c0 sel H0).
Qed.

(** X8: the value of a reading is never NaN or infinite. It is a zero
    when the magnitude is 0, and otherwise a normal double (53 significant
    bits, no overflow or underflow) whose sign bit is the sign flag,
    flipped when [int()] read a negative magnitude. *)
Theorem value_is_finite
  (raw : string) (v : F64.float) (unit kind : string)
  (fd : list (string * bool)) :
  UT803.read (Some raw) = Ok (Some (v, unit, kind, fd)) ->
  exists b c6 f0,
    py_int (str_slice raw 1 5) = Ok b /\
    str_index raw 6 = Ok c6 /\ chrToInt c6 = Ok f0 /\
    (b = 0 -> v = S754_zero (Z.testbit f0 2)) /\
    (b <> 0 ->
     exists m e,
       v = S754_finite (xorb (b <? 0) (Z.testbit f0 2)) m e /\
       digits2_pos m = 53%positive /\ -1074 <= e <= 971).
Proof.
  intros H. exact (read_value_shape raw _ H).
Qed.

Lemma value_is_finite_witness :
  exists v unit kind fd m e,
    UT803.read (Some frame_negative) = Ok (Some (v, unit, kind, fd)) /\
    v = S754_finite true m e.
Proof.
  destruct (UT803.read (Some frame_negative)) as [[[[[v u] k] fd]|]|e] eqn:E;
    try (vm_compute in E; discriminate E).
  destruct (value_is_finite frame_negative v u k fd E)
    as (b & c6 & f0 & Hb & H6 & N6 & _ & Hnz).
  assert (Eb : b = 1234) by (vm_compute in Hb; injection Hb as <-; reflexivity).
  assert (Ef : f0 = 4).
  { vm_compute in H6. injection H6 as <-.
    vm_compute in N6. injection N6 as <-. reflexivity. }
  subst b f0.
  destruct Hnz as (m & e & Hv & _); [discriminate|].
  exists v, u, k, fd, m, e. split; [reflexivity | exact Hv].
Defined.

(** ** [prettyValueFormat] on every value *)

Lemma literal_values :
  F64.decimal 1 (-6) = S754_finite false 4722366482869645 (-72) /\
  F64.decimal 1 (-3) = S754_finite false 4611686018427388 (-62) /\
  F64.of_int 1 = S754_finite false 4503599627370496 (-52) /\
  F64.decimal 1 3 = S754_finite false 8796093022208000 (-43) /\
  F64.decimal 1 6 = S754_finite false 8589934592000000 (-33).
Proof. repeat split; vm_compute; reflexivity. Qed.

(** A value at or above a positive threshold is not zero and is not below
    that threshold or a smaller one. *)
Lemma leb_blocks (ma mb : positive) (ea eb : Z) (v : F64.float) :
  ea <= eb -> (ea = eb -> ma = mb) ->
  f64_leb (S754_finite false mb eb) v = true ->
  F64.ltb v (S754_finite false ma ea) = false /\
  F64.eqb v (S754_zero false) = false.
Proof.
  intros Hle Heq.
  unfold f64_leb, F64.ltb, F64.eqb, SFleb, SFltb, SFeqb.
  destruct v as [s|s| |s m e]; cbn [SFcompare]; try discriminate.
  - destruct s; [discriminate|]. split; reflexivity.
  - destruct s; [discriminate|].
    change (Pos.compare_cont Eq mb m) with (Pos.compare mb m).
    change (Pos.compare_cont Eq m ma) with (Pos.compare m ma).
    destruct (Z.compare_spec eb e) as [E1|E1|E1];
      destruct (Z.compare_spec e ea) as [E2|E2|E2];
      try lia; try (intros; split; reflexivity); try discriminate.
    subst e. subst eb. rewrite (Heq eq_refl).
    rewrite (Pos.compare_antisym mb m).
    destruct (Pos.compare mb m); cbn [CompOpp]; try discriminate;
      intros; split; reflexivity.
Qed.

(** X9: the bands of [prettyValueFormat]. A value with
    [0 < value < 1e-9] is scaled by 1e12 with the prefix "p";
    [1e-9 <= value < 1e-6] by 1e9 with "n"; [1e-6 <= value < 1e-3] by 1e6
    with "u"; [1e-3 <= value < 1] by 1e3 with "m"; [1 <= value < 1e3] is
    returned unchanged; [1e3 <= value < 1e6] is scaled by 1e-3 with "k";
    and [1e6 <= value], infinity included, by 1e-6 with "M". The unit is
    kept after the prefix. *)
Theorem prettyValueFormat_bands (value : F64.float) (unit : string) :
  (F64.ltb (F64.decimal 0 0) value = true ->
   F64.ltb value (F64.decimal 1 (-9)) = true ->
   prettyValueFormat value unit
   = (F64.mul value (F64.decimal 1 12), "p" ++ unit)) /\
  (f64_leb (F64.decimal 1 (-9)) value = true ->
   F64.ltb value (F64.decimal 1 (-6)) = true ->
   prettyValueFormat value unit
   = (F64.mul value (F64.decimal 1 9), "n" ++ unit)) /\
  (f64_leb (F64.decimal 1 (-6)) value = true ->
   F64.ltb value (F64.decimal 1 (-3)) = true ->
   prettyValueFormat value unit
   = (F64.mul value (F64.decimal 1 6), "u" ++ unit)) /\
  (f64_leb (F64.decimal 1 (-3)) value = true ->
   F64.ltb value (F64.of_int 1) = true ->
   prettyValueFormat value unit
   = (F64.mul value (F64.decimal 1 3), "m" ++ unit)) /\
  (f64_leb (F64.of_int 1) value = true ->
   F64.ltb value (F64.decimal 1 3) = true ->
   prettyValueFormat value unit = (value, unit)) /\
  (f64_leb (F64.decimal 1 3) value = true ->
   F64.ltb value (F64.decimal 1 6) = true ->
   prettyValueFormat value unit
   = (F64.mul value (F64.decimal 1 (-3)), "k" ++ unit)) /\
  (f64_leb (F64.decimal 1 6) value = true ->
   prettyValueFormat value unit
   = (F64.mul value (F64.decimal 1 (-6)), "M" ++ unit)).
Proof.
  unfold prettyValueFormat.
  destruct literal_values as (L6 & L3 & L1 & K3 & K6).
  rewrite literal_0, literal_1e_9, L6, L3, L1, K3, K6.
  repeat split.
  - intros Hpos Hlt. rewrite Hlt.
    assert (Hz : F64.eqb value (S754_zero false) = false).
    { unfold F64.ltb, SFltb in Hpos. unfold F64.eqb, SFeqb.
      destruct value as [s|s| |s m e]; cbn [SFcompare] in *;
        try discriminate Hpos; destruct s; try discriminate Hpos;
        reflexivity. }
    rewrite Hz. reflexivity.
  - intros Hge Hlt.
    destruct (leb_blocks 4835703278458517 4835703278458517 (-82) (-82) value
                ltac:(lia) ltac:(intros; reflexivity) Hge) as [B9 Bz].
    rewrite Bz, B9, Hlt. reflexivity.
  - intros Hge Hlt.
    destruct (leb_blocks 4835703278458517 4722366482869645 (-82) (-72) value
                ltac:(lia) ltac:(intros; lia) Hge) as [B9 Bz].
    destruct (leb_blocks 4722366482869645 4722366482869645 (-72) (-72) value
                ltac:(lia) ltac:(intros; reflexivity) Hge) as [B6 _].
    rewrite Bz, B9, B6, Hlt. reflexivity.
  - intros Hge Hlt.
    destruct (leb_blocks 4835703278458517 4611686018427388 (-82) (-62) value
                ltac:(lia) ltac:(intros; lia) Hge) as [B9 Bz].
    destruct (leb_blocks 4722366482869645 4611686018427388 (-72) (-62) value
                ltac:(lia) ltac:(intros; lia) Hge) as [B6 _].
    destruct (leb_blocks 4611686018427388 4611686018427388 (-62) (-62) value
                ltac:(lia) ltac:(intros; reflexivity) Hge) as [B3 _].
    rewrite Bz, B9, B6, B3, Hlt. reflexivity.
  - intros Hge Hlt.
    destruct (leb_blocks 4835703278458517 4503599627370496 (-82) (-52) value
                ltac:(lia) ltac:(intros; lia) Hge) as [B9 Bz].
    destruct (leb_blocks 4722366482869645 4503599627370496 (-72) (-52) value
                ltac:(lia) ltac:(intros; lia) Hge) as [B6 _].
    destruct (leb_blocks 4611686018427388 4503599627370496 (-62) (-52) value
                ltac:(lia) ltac:(intros; lia) Hge) as [B3 _].
    destruct (leb_blocks 4503599627370496 4503599627370496 (-52) (-52) value
                ltac:(lia) ltac:(intros; reflexivity) Hge) as [B1 _].
    rewrite Bz, B9, B6, B3, B1, Hlt. reflexivity.
  - intros Hge Hlt.
    destruct (leb_blocks 4835703278458517 8796093022208000 (-82) (-43) value
                ltac:(lia) ltac:(intros; lia) Hge) as [B9 Bz].
    destruct (leb_blocks 4722366482869645 8796093022208000 (-72) (-43) value
                ltac:(lia) ltac:(intros; lia) Hge) as [B6 _].
    destruct (leb_blocks 4611686018427388 8796093022208000 (-62) (-43) value
                ltac:(lia) ltac:(intros; lia) Hge) as [B3 _].
    destruct (leb_blocks 4503599627370496 8796093022208000 (-52) (-43) value
                ltac:(lia) ltac:(intros; lia) Hge) as [B1 _].
    destruct (leb_blocks 8796093022208000 8796093022208000 (-43) (-43) value
                ltac:(lia) ltac:(intros; reflexivity) Hge) as [A3 _].
    rewrite Bz, B9, B6, B3, B1, A3, Hlt. reflexivity.
  - intros Hge.
    destruct (leb_blocks 4835703278458517 8589934592000000 (-82) (-33) value
                ltac:(lia) ltac:(intros; lia) Hge) as [B9 Bz].
    destruct (leb_blocks 4722366482869645 8589934592000000 (-72) (-33) value
                ltac:(lia) ltac:(intros; lia) Hge) as [B6 _].
    destruct (leb_blocks 4611686018427388 8589934592000000 (-62) (-33) value
                ltac:(lia) ltac:(intros; lia) Hge) as [B3 _].
    destruct (leb_blocks 4503599627370496 8589934592000000 (-52) (-33) value
                ltac:(lia) ltac:(intros; lia) Hge) as [B1 _].
    destruct (leb_blocks 8796093022208000 8589934592000000 (-43) (-33) value
                ltac:(lia) ltac:(intros; lia) Hge) as [A3 _].
    destruct (leb_blocks 8589934592000000 8589934592000000 (-33) (-33) value
                ltac:(lia) ltac:(intros; reflexivity) Hge) as [A6 _].
    rewrite Bz, B9, B6, B3, B1, A3, A6. reflexivity.
Qed.

Lemma prettyValueFormat_bands_witness :
  prettyValueFormat (F64.decimal 47 2) "Ohm"
  = (F64.mul (F64.decimal 47 2) (F64.decimal 1 (-3)), "kOhm").
Proof.
  apply (proj1 (proj2 (proj2 (proj2 (proj2 (proj2
           (prettyValueFormat_bands (F64.decimal 47 2) "Ohm")))))));
    vm_compute; reflexivity.
Defined.

(** X10: the special values. Both zeros are returned unchanged, with
    their sign; NaN falls through every comparison and comes back as NaN
    with the prefix "M"; plus infinity gets the prefix "M" and minus
    infinity the prefix "p". *)
Theorem prettyValueFormat_special (unit : string) :
  (forall s, prettyValueFormat (S754_zero s) unit = (S754_zero s, unit)) /\
  prettyValueFormat S754_nan unit = (S754_nan, "M" ++ unit) /\
  prettyValueFormat (S754_infinity false) unit
  = (S754_infinity false, "M" ++ unit) /\
  prettyValueFormat (S754_infinity true) unit
  = (S754_infinity true, "p" ++ unit).
Proof.
  repeat split; vm_compute; reflexivity.
Qed.



(** ** The object after [close] *)

(** X12: once the object is closed, [read] returns [None] without raising
    and without touching the port, and a second [close] does not close the
    port again. *)
Theorem closed_device (d : Device.t) :
  let d' := fst (Device.close d) in
  Device.conn d' = None /\
  Device.read d' = (Ok None, d') /\
  Device.close d' = (d', []).
Proof.
  unfold Device.close. destruct (Device.conn d); repeat split; reflexivity.
Qed.

(** ** The recording loop *)

Import Interactive.
Local Open Scope list_scope.

Lemma table_values_nonempty (m : Z) (k : string) :
  dict_get UT803.measurement_type_table m = Ok k -> k <> "".
Proof.
  unfold dict_get, UT803.measurement_type_table, dict_find.
  repeat match goal with
         | |- context [?a =? ?b] =>
             destruct (Z.eqb_spec a b);
             [let Hk := fresh "Hk" in
              intros Hk; injection Hk as <-; discriminate|]
         end.
  discriminate.
Qed.

(** A reading has a kind that is not empty and a flag "overload". *)
Lemma reading_facts (line : string) (v : F64.float) (u k : string)
  (fd : list (string * bool)) :
  UT803.read (Some line) = Ok (Some (v, u, k, fd)) ->
  k <> "" /\ exists ov, sdict_find fd "overload" = Some ov.
Proof.
  intros H.
  destruct (read_Some_inv line _ H)
    as (c0 & d1 & d2 & d3 & d4 & c5 & c6 & c7 & c8 & t9 & t10 & m & k' & f0
        & f1 & f2 & u' & sel & b & _ & _ & _ & Hk & _ & _ & _ & _ & _ & _
        & Hr).
  injection Hr as _ _ -> ->.
  split; [apply (table_values_nonempty m k' Hk)|].
  eexists. reflexivity.
Qed.

Lemma after_sample_quiet (a : args) (v : F64.float) (u k : string)
  (fd : list (string * bool)) :
  forallb is_quiet (fst (after_sample a v u k fd)) = true.
Proof.
  unfold after_sample.
  destruct (monitor a); [destruct (prettyValueFormat v u)|];
    destruct (delay a) as [d|]; try reflexivity;
    destruct (truthy d); try reflexivity;
    destruct ((d <? - max_sleep_seconds) || (max_sleep_seconds <? d));
    try reflexivity;
    destruct (d <? 0); reflexivity.
Qed.



Lemma iteration_has_shape (a : args) (st : state) (tk : tick) :
  iteration_shape a st tk (iteration a st tk).
Proof.
  unfold iteration.
  destruct (UT803.read (Some (raw tk))) as [[[[[v u] k] fd]|]|e] eqn:Hread.
  - destruct (reading_facts _ _ _ _ _ Hread) as [Hk [ov Hov]].
    rewrite Hov.
    destruct (String.eqb_spec k (current_measurement st)) as [Heq|Hne];
      cbn [negb].
    + subst k.
      destruct (F64.ltb (f64_sub (f64_sub (now tk) (initial_time st))
                                 (last_time st)) (F64.decimal 5 (-2)))
        eqn:Hdeb.
      * apply (shape_debounced a st tk v u fd Hread Hdeb).
      * pose proof (shape_sample a st tk v u fd ov Hread Hov Hk Hdeb) as S.
        cbv zeta in S. cbn [app].
        destruct (after_sample a v u (current_measurement st) fd)
          as [out3 [e3|]]; cbn [fst snd] in S; cbn [app] in S; exact S.
    + cbv iota beta.
      change (F64.ltb (f64_sub (F64.of_int 0) (F64.of_int (-10)))
                      (F64.decimal 5 (-2))) with false.
      cbv iota. cbn [current_measurement initial_time].
      pose proof (shape_header a st tk v u k fd ov Hread Hov Hk Hne) as S.
      destruct (after_sample a v u k fd) as [out3 [e3|]];
        cbn [fst snd] in S; rewrite <- !app_assoc; exact S.
  - apply shape_none. assumption.
  - apply shape_raise. assumption.
Qed.

Lemma run_cons (a : args) (st : state) (tk : tick) (rest : list tick) :
  run a st (tk :: rest)
  = match iteration a st tk with
    | (out, inr e) => (out, st, Some e)
    | (out, inl st') =>
        let '(out', st'', err) := run a st' rest in
        (out ++ out', st'', err)
    end.
Proof. reflexivity. Qed.

(** The loop on a sequence in two parts. *)
Lemma run_app (a : args) (t1 t2 : list tick) :
  forall st : state,
    run a st (t1 ++ t2)
    = match run a st t1 with
      | (o1, st1, Some e) => (o1, st1, Some e)
      | (o1, st1, None) =>
          let '(o2, st2, err) := run a st1 t2 in (o1 ++ o2, st2, err)
      end.
Proof.
  induction t1 as [|tk t1 IH]; intros st.
  - cbn [app run]. destruct (run a st t2) as [[o2 st2] err]. reflexivity.
  - cbn [app]. rewrite !run_cons.
    destruct (iteration a st tk) as [out [st'|e]]; [|reflexivity].
    rewrite IH.
    destruct (run a st' t1) as [[o1 st1] [e1|]]; [reflexivity|].
    destruct (run a st1 t2) as [[o2 st2] err].
    rewrite app_assoc. reflexivity.
Qed.

(** Induction on the iterations of the loop, through their shapes. *)
Lemma run_invariant (a : args) (P : state -> list event -> Prop) :
  (forall st, P st []) ->
  (forall st tk out e,
      iteration_shape a st tk (out, inr e) -> P st out) ->
  (forall st tk out st' out',
      iteration_shape a st tk (out, inl st') ->
      P st' out' -> P st (out ++ out')) ->
  forall (ticks : list tick) (st : state),
    P st (fst (fst (run a st ticks))).
Proof.
  intros Hnil Herr Hstep ticks.
  induction ticks as [|tk rest IH]; intros st.
  - apply Hnil.
  - rewrite run_cons.
    pose proof (iteration_has_shape a st tk) as S.
    destruct (iteration a st tk) as [out [st'|e]].
    + specialize (IH st').
      destruct (run a st' rest) as [[out' st''] err]. cbn [fst] in *.
      apply (Hstep st tk out st' out' S IH).
    + cbn [fst]. apply (Herr st tk out e S).
Qed.

Lemma spaced_quiet (q r : list event) (l : F64.float) :
  forallb is_quiet q = true -> (spaced l (q ++ r) <-> spaced l r).
Proof.
  induction q as [|e q IH]; intros Hq; [reflexivity|].
  cbn [forallb] in Hq. apply andb_true_iff in Hq. destruct Hq as [He Hq].
  destruct e; try discriminate He; cbn [app spaced]; apply IH; assumption.
Qed.

Lemma header_kinds_quiet (q r : list event) :
  forallb is_quiet q = true -> header_kinds (q ++ r) = header_kinds r.
Proof.
  induction q as [|e q IH]; intros Hq; [reflexivity|].
  cbn [forallb] in Hq. apply andb_true_iff in Hq. destruct Hq as [He Hq].
  destruct e; try discriminate He; cbn [app header_kinds]; apply IH;
    assumption.
Qed.

Lemma headers_zero_quiet (q r : list event) :
  forallb is_quiet q = true ->
  (headers_start_at_zero (q ++ r) <-> headers_start_at_zero r).
Proof.
  induction q as [|e q IH]; intros Hq; [reflexivity|].
  cbn [forallb] in Hq. apply andb_true_iff in Hq. destruct Hq as [He Hq].
  destruct e; try discriminate He; cbn [app headers_start_at_zero];
    apply IH; assumption.
Qed.

Ltac invert_shape S :=
  inversion S; subst; clear S;
  repeat match goal with
         | H : match snd ?x with Some _ => _ | None => _ end = _ |- _ =>
             let E := fresh "Eafter" in
             destruct (snd x) eqn:E; try discriminate H;
             injection H as <-
         | H : inl _ = inl _ |- _ => injection H as <-
         | H : inr _ = inr _ |- _ => injection H as <-
         end.

(** *** Traces that are cut *)

Lemma spaced_firstn (evs : list event) :
  forall (n : nat) (l : F64.float),
    spaced l evs -> spaced l (firstn n evs).
Proof.
  induction evs as [|e evs IH]; intros n l H.
  - rewrite firstn_nil. exact I.
  - destruct n as [|n]; [exact I|].
    cbn [firstn].
    destruct e as [[| |t v ov]| | | | |]; cbn [spaced] in *;
      try (apply IH; assumption).
    destruct H as [H1 H2]. split; [assumption | apply IH; assumption].
Qed.

Lemma header_kinds_firstn (evs : list event) :
  forall n : nat,
    exists m : nat,
      header_kinds (firstn n evs) = firstn m (header_kinds evs).
Proof.
  induction evs as [|e evs IH]; intros n.
  - exists 0%nat. rewrite firstn_nil. reflexivity.
  - destruct n as [|n]; [exists 0%nat; reflexivity|].
    destruct (IH n) as [m Hm]. cbn [firstn].
    destruct e as [[| |t v ov]| | | | |]; cbn [header_kinds];
      try (exists m; exact Hm).
    exists (S m). cbn [firstn]. rewrite Hm. reflexivity.
Qed.

Lemma adjacent_distinct_firstn (l : list string) :
  forall m : nat, adjacent_distinct l -> adjacent_distinct (firstn m l).
Proof.
  induction l as [|x l IH]; intros m H.
  - rewrite firstn_nil. exact I.
  - destruct m as [|m]; [exact I|].
    cbn [firstn]. destruct l as [|y l]; [rewrite firstn_nil; exact I|].
    destruct m as [|m]; [exact I|].
    cbn [adjacent_distinct] in H. destruct H as [Hxy H].
    specialize (IH (S m) H). cbn [firstn] in *.
    cbn [adjacent_distinct]. split; assumption.
Qed.

Lemma headers_zero_firstn (evs : list event) :
  forall n : nat,
    headers_start_at_zero evs -> headers_start_at_zero (firstn n evs).
Proof.
  induction evs as [|e evs IH]; intros n H.
  - rewrite firstn_nil. exact I.
  - destruct n as [|n]; [exact I|].
    cbn [firstn].
    destruct e as [[|ac k u|t v ov]| | | | |];
      cbn [headers_start_at_zero] in *; try (apply IH; assumption).
    destruct H as [H1 H2]. split; [|apply IH; assumption].
    destruct evs as [|e' evs']; [rewrite firstn_nil; exact I|].
    destruct n as [|n]; [exact I|].
    cbn [firstn]. exact H1.
Qed.

(** What a stopped loop wrote is the beginning of what the full run
    writes. *)
Lemma written_prefix (a : args) (ticks : list tick) (w : world) :
  is_prefix (written a ticks w) (fst (fst (run a initial ticks))).
Proof.
  unfold written, loop, is_prefix.
  destruct (run a initial ticks) as [[out st] err]. cbn [fst].
  unfold apply_cut.
  destruct (stop w) as [|n|n].
  - exists (List.length out). rewrite firstn_all. reflexivity.
  - destruct (Nat.leb n (List.length out));
      [exists n | exists (List.length out); rewrite firstn_all]; reflexivity.
  - destruct (Nat.leb n (List.length out));
      [exists n | exists (List.length out); rewrite firstn_all]; reflexivity.
Qed.

(** *** The full run *)

Lemma run_spaced (a : args) (ticks : list tick) (st : state) :
  spaced (last_time st) (fst (fst (run a st ticks))).
Proof.
  revert ticks st.
  apply (run_invariant a (fun st out => spaced (last_time st) out)).
  - intros st. exact I.
  - intros st tk out e S. invert_shape S.
    + exact I.
    + cbn [app spaced]. split; [assumption|].
      rewrite <- (app_nil_r (fst _)). apply spaced_quiet;
        [apply after_sample_quiet | exact I].
    + destruct (negb (String.eqb (current_measurement st) ""));
        cbn [app spaced]; (split; [vm_compute; reflexivity|]);
        rewrite <- (app_nil_r (fst _)); apply spaced_quiet;
        try apply after_sample_quiet; exact I.
  - intros st tk out st' out' S IH. invert_shape S.
    + exact IH.
    + exact IH.
    + cbn [app spaced]. split; [assumption|].
      apply spaced_quiet; [apply after_sample_quiet | exact IH].
    + rewrite <- !app_assoc.
      destruct (negb (String.eqb (current_measurement st) ""));
        cbn [app spaced]; (split; [vm_compute; reflexivity|]);
        apply spaced_quiet; try apply after_sample_quiet; exact IH.
Qed.

Lemma run_headers_distinct (a : args) (ticks : list tick) (st : state) :
  adjacent_distinct
    (current_measurement st :: header_kinds (fst (fst (run a st ticks)))).
Proof.
  revert ticks st.
  apply (run_invariant a
           (fun st out =>
              adjacent_distinct (current_measurement st :: header_kinds out))).
  - intros st. exact I.
  - intros st tk out e S. invert_shape S.
    + exact I.
    + cbn [app header_kinds].
      rewrite <- (app_nil_r (fst _)), header_kinds_quiet
        by apply after_sample_quiet.
      exact I.
    + destruct (negb (String.eqb (current_measurement st) ""));
        cbn [app header_kinds];
        rewrite <- (app_nil_r (fst _)), header_kinds_quiet
          by apply after_sample_quiet;
        cbn [header_kinds adjacent_distinct]; (split; [congruence | exact I]).
  - intros st tk out st' out' S IH. invert_shape S.
    + exact IH.
    + exact IH.
    + cbn [app header_kinds]. rewrite header_kinds_quiet
        by apply after_sample_quiet.
      exact IH.
    + rewrite <- !app_assoc.
      destruct (negb (String.eqb (current_measurement st) ""));
        cbn [app header_kinds];
        rewrite header_kinds_quiet by apply after_sample_quiet;
        cbn [current_measurement] in IH;
        cbn [adjacent_distinct]; (split; [congruence | exact IH]).
Qed.

Lemma run_headers_zero (a : args) (ticks : list tick) (st : state) :
  headers_start_at_zero (fst (fst (run a st ticks))).
Proof.
  revert ticks st.
  apply (run_invariant a (fun _ out => headers_start_at_zero out)).
  - intros st. exact I.
  - intros st tk out e S. invert_shape S.
    + exact I.
    + cbn [app headers_start_at_zero].
      rewrite <- (app_nil_r (fst _)). apply headers_zero_quiet;
        [apply after_sample_quiet | exact I].
    + destruct (negb (String.eqb (current_measurement st) ""));
        cbn [app headers_start_at_zero]; (split; [reflexivity|]);
        rewrite <- (app_nil_r (fst _)); apply headers_zero_quiet;
        try apply after_sample_quiet; exact I.
  - intros st tk out st' out' S IH. invert_shape S.
    + exact IH.
    + exact IH.
    + cbn [app headers_start_at_zero].
      apply headers_zero_quiet; [apply after_sample_quiet | exact IH].
    + rewrite <- !app_assoc.
      destruct (negb (String.eqb (current_measurement st) ""));
        cbn [app headers_start_at_zero]; (split; [reflexivity|]);
        apply headers_zero_quiet; try apply after_sample_quiet; exact IH.
Qed.

Lemma run_header_first (a : args) (tks : list tick) :
  forall st : state,
    current_measurement st = "" ->
    fst (fst (run a st tks)) = [] \/
    exists active measure unit rest,
      fst (fst (run a st tks))
      = FileWrite (Header active measure unit) :: rest.
Proof.
  induction tks as [|tk rest IH]; intros st Hst; [left; reflexivity|].
  rewrite run_cons.
  pose proof (iteration_has_shape a st tk) as S.
  destruct (iteration a st tk) as [out [st'|e]].
  - assert (Hout : (out = [] /\ st' = st) \/
                   exists active measure unit r,
                     out = FileWrite (Header active measure unit) :: r).
    { invert_shape S; try (left; split; reflexivity).
      - contradiction.
      - right. rewrite Hst. cbn [String.eqb negb app]. eauto. }
    destruct Hout as [[-> ->]|(ac & m & u & r & ->)].
    + specialize (IH st Hst).
      destruct (run a st rest) as [[out' st''] err]. exact IH.
    + right. destruct (run a st' rest) as [[out' st''] err].
      cbn [fst app]. eauto.
  - cbn [fst]. invert_shape S.
    + left. reflexivity.
    + contradiction.
    + right. rewrite Hst. cbn [String.eqb negb app]. eauto.
Qed.

(** *** The properties of the recording *)

(** X13: no two samples of a block are closer than 0.05 s. In what the
    loop writes, wherever it is stopped, a sample that follows another
    sample without a header in between has a time that is not less than
    0.05 above the time of that sample; the first sample of a block is
    compared with -10. *)
Theorem samples_are_spaced (a : args) (ticks : list tick) (w : world) :
  spaced (F64.decimal 0 0) (written a ticks w).
Proof.
  destruct (written_prefix a ticks w) as [n ->].
  apply spaced_firstn. apply (run_spaced a ticks initial).
Qed.

(** X14: a header is written only when the kind changes. The kinds of
    the headers, in the order in which they are written, start with a
    kind that is not empty, and no header has the kind of the header
    before it, wherever the loop is stopped. *)
Theorem headers_on_kind_change (a : args) (ticks : list tick) (w : world) :
  adjacent_distinct ("" :: header_kinds (written a ticks w)).
Proof.
  destruct (written_prefix a ticks w) as [n ->].
  destruct (header_kinds_firstn (fst (fst (run a initial ticks))) n)
    as [m ->].
  apply (adjacent_distinct_firstn
           ("" :: header_kinds (fst (fst (run a initial ticks)))) (S m)).
  apply (run_headers_distinct a ticks initial).
Qed.

(** The iteration that reads a frame of another kind. *)
Lemma iteration_on_kind_change (a : args) (st : state) (tk : tick)
  (v : F64.float) (u k : string) (fd : list (string * bool)) :
  UT803.read (Some (raw tk)) = Ok (Some (v, u, k, fd)) ->
  k <> current_measurement st ->
  exists ov rest,
    sdict_find fd "overload" = Some ov /\
    fst (iteration a st tk)
    = (if negb (String.eqb (current_measurement st) "")
       then [FileWrite Newline] else [])
      ++ FileWrite (Header (active_flags fd) k u)
         :: FileWrite (Sample (F64.of_int 0) v ov)
         :: FileFlush :: rest.
Proof.
  intros Hread Hk.
  pose proof (iteration_has_shape a st tk) as S.
  destruct (iteration a st tk) as [out r]. cbn [fst].
  inversion S; subst; clear S;
    try (rewrite Hread in *; discriminate);
    match goal with
    | H : UT803.read _ = Ok (Some (?v0, ?u0, ?k0, ?fd0)) |- _ =>
        assert (Heq : v0 = v /\ u0 = u /\ k0 = k /\ fd0 = fd)
          by (rewrite Hread in H; injection H; auto)
    end;
    destruct Heq as (-> & -> & Hk0 & ->);
    try (exfalso; apply Hk; symmetry; exact Hk0).
  subst. eexists. eexists. split; [eassumption|]. reflexivity.
Qed.

(** The first line of a run, when it is a reading. *)
Lemma run_first_header (a : args) (tk : tick) (rest : list tick)
  (v : F64.float) (u k : string) (fd : list (string * bool)) :
  UT803.read (Some (raw tk)) = Ok (Some (v, u, k, fd)) ->
  exists ov more,
    fst (fst (run a initial (tk :: rest)))
    = FileWrite (Header (active_flags fd) k u)
      :: FileWrite (Sample (F64.of_int 0) v ov) :: FileFlush :: more.
Proof.
  intros Hread.
  destruct (reading_facts _ _ _ _ _ Hread) as [Hk _].
  destruct (iteration_on_kind_change a initial tk v u k fd Hread Hk)
    as (ov & more & _ & Hout).
  cbn [initial current_measurement String.eqb negb app] in Hout.
  rewrite run_cons.
  destruct (iteration a initial tk) as [out [st'|e]]; cbn [fst] in Hout;
    subst out.
  - destruct (run a st' rest) as [[out' st''] err].
    exists ov, (more ++ out'). reflexivity.
  - exists ov, more. reflexivity.
Qed.

(** X15: a frame that changes the kind is never dropped by the 0.05 s
    filter. Whatever the state and the clock, the iteration that reads a
    frame whose kind differs from the current one writes a new line when
    there was a kind before, then the header of the new kind, then the
    sample of this very frame with the time 0, and flushes; the lookup
    of "overload" between the two writes does not fail. In what the
    loop writes, wherever it is stopped, every header is directly followed
    by a sample with the time 0, unless the recording stops right after
    the header; and that does happen: an interrupt or a failing write
    after the first header leaves the header alone in the file. *)
Theorem header_then_sample_at_zero :
  (forall (a : args) (st : state) (tk : tick) (v : F64.float)
          (u k : string) (fd : list (string * bool)),
      UT803.read (Some (raw tk)) = Ok (Some (v, u, k, fd)) ->
      k <> current_measurement st ->
      exists ov rest,
        sdict_find fd "overload" = Some ov /\
        fst (iteration a st tk)
        = (if negb (String.eqb (current_measurement st) "")
           then [FileWrite Newline] else [])
          ++ FileWrite (Header (active_flags fd) k u)
             :: FileWrite (Sample (F64.of_int 0) v ov)
             :: FileFlush :: rest) /\
  (forall (a : args) (ticks : list tick) (w : world),
      headers_start_at_zero (written a ticks w)) /\
  (forall (a : args) (tk : tick) (rest : list tick) (v : F64.float)
          (u k : string) (fd : list (string * bool)) (w : world),
      UT803.read (Some (raw tk)) = Ok (Some (v, u, k, fd)) ->
      stop w = InterruptAfter 1 \/ stop w = FailureAfter 1 ->
      written a (tk :: rest) w = [FileWrite (Header (active_flags fd) k u)]).
Proof.
  split; [|split].
  - intros a st tk v u k fd Hread Hk.
    apply iteration_on_kind_change; assumption.
  - intros a ticks w.
    destruct (written_prefix a ticks w) as [n ->].
    apply headers_zero_firstn. apply (run_headers_zero a ticks initial).
  - intros a tk rest v u k fd w Hread Hstop.
    destruct (run_first_header a tk rest v u k fd Hread) as (ov & more & Hrun).
    unfold written, loop.
    destruct (run a initial (tk :: rest)) as [[out st] err].
    cbn [fst] in Hrun. subst out. unfold apply_cut.
    destruct Hstop as [-> | ->]; reflexivity.
Qed.

Lemma header_then_sample_at_zero_witness :
  (exists ov rest,
      fst (iteration plain_args initial (tick_at frame_voltage 100))
      = FileWrite (Header [] "voltage" "V")
        :: FileWrite (Sample (F64.of_int 0) (F64.decimal 1234 (-1)) ov)
        :: FileFlush :: rest) /\
  written plain_args [tick_at frame_voltage 100; tick_at frame_voltage 101]
    {| stop := InterruptAfter 1; close_fails := false;
       port_close_fails := false |}
  = [FileWrite (Header [] "voltage" "V")].
Proof.
  split.
  - destruct (proj1 header_then_sample_at_zero plain_args initial
                (tick_at frame_voltage 100) (F64.decimal 1234 (-1)) "V"
                "voltage" flags_all_clear)
      as (ov & rest & _ & Hout).
    + vm_compute. reflexivity.
    + discriminate.
    + exists ov, rest. exact Hout.
  - apply (proj2 (proj2 header_then_sample_at_zero) plain_args
             (tick_at frame_voltage 100) [tick_at frame_voltage 101]
             (F64.decimal 1234 (-1)) "V" "voltage" flags_all_clear).
    + vm_compute. reflexivity.
    + left. reflexivity.
Defined.

(** X16: the first thing that the loop writes is a header; no sample is
    written before the first header, wherever the loop is stopped. *)
Theorem header_comes_first (a : args) (ticks : list tick) (w : world) :
  written a ticks w = [] \/
  exists active measure unit rest,
    written a ticks w = FileWrite (Header active measure unit) :: rest.
Proof.
  destruct (written_prefix a ticks w) as [n ->].
  destruct (run_header_first a ticks initial eq_refl)
    as [->|(ac & m & u & r & ->)].
  - left. apply firstn_nil.
  - destruct n as [|n]; [left; reflexivity|].
    right. cbn [firstn]. eauto.
Qed.




(** X19: a line on which [read] raises ends the recording. The exception
    is not caught: what [interactive] has written is what the lines
    before it gave, closing included, and the lines after it are never
    read, in whatever world the recording runs. *)
Theorem bad_frame_ends_recording
  (a : args) (before after : list tick) (tk : tick) (e : exn)
  (out : list event) :
  UT803.read (Some (raw tk)) = Raise e ->
  (interactive a before calm = (out, None) ->
   interactive a (before ++ tk :: after) calm = (out, Some (ReadError e))) /\
  (forall w : world,
      interactive a (before ++ tk :: after) w
      = interactive a (before ++ [tk]) w).
Proof.
  intros Hr.
  assert (Hbad : forall st l, run a st (tk :: l) = ([], st, Some (ReadError e))).
  { intros st l. rewrite run_cons. unfold iteration. rewrite Hr.
    reflexivity. }
  split.
  - unfold interactive, loop. intros Hb. rewrite run_app.
    destruct (run a initial before) as [[o1 st1] err1].
    cbn [calm stop close_fails port_close_fails apply_cut] in *.
    rewrite andb_false_r in *.
    injection Hb as <- ->. rewrite Hbad. rewrite app_nil_r. reflexivity.
  - intros w. unfold interactive, loop. rewrite !run_app.
    destruct (run a initial before) as [[o1 st1] [e1|]]; [reflexivity|].
    rewrite !Hbad. reflexivity.
Qed.

(** X20: a line that [read] drops, an ASCII line whose length is not 11,
    leaves no trace in the recording: the result is the same as without
    it, in whatever world the recording runs. *)
Theorem dropped_line_leaves_no_trace
  (a : args) (before after : list tick) (tk : tick) (w : world) :
  decode_ascii (raw tk) = Ok (raw tk) ->
  String.length (raw tk) <> 11%nat ->
  interactive a (before ++ tk :: after) w
  = interactive a (before ++ after) w.
Proof.
  intros Hdec Hlen. unfold interactive, loop. rewrite !run_app.
  destruct (run a initial before) as [[o1 st1] [e1|]]; [reflexivity|].
  rewrite run_cons. unfold iteration.
  rewrite (proj2 (read_None_iff_aux (raw tk)) (conj Hdec Hlen)).
  destruct (run a st1 after) as [[o2 st2] err]. reflexivity.
Qed.


Lemma bad_frame_ends_recording_witness :
  interactive plain_args
    ([tick_at frame_voltage 100] ++ tick_at frame_letter 101
       :: [tick_at frame_voltage 102]) calm
  = (fst (interactive plain_args [tick_at frame_voltage 100] calm),
     Some (ReadError (ValueError "a234"))).
Proof.
  apply (proj1 (bad_frame_ends_recording plain_args
                  [tick_at frame_voltage 100] [tick_at frame_voltage 102]
                  (tick_at frame_letter 101) (ValueError "a234")
                  (fst (interactive plain_args [tick_at frame_voltage 100]
                          calm))
                  ltac:(vm_compute; reflexivity))).
  vm_compute. reflexivity.
Defined.

Lemma dropped_line_leaves_no_trace_witness :
  interactive plain_args
    ([tick_at frame_voltage 100] ++ tick_at "noise" 101
       :: [tick_at frame_capacitance 102])
    {| stop := InterruptAfter 4; close_fails := false;
       port_close_fails := false |}
  = interactive plain_args
      ([tick_at frame_voltage 100] ++ [tick_at frame_capacitance 102])
      {| stop := InterruptAfter 4; close_fails := false;
       port_close_fails := false |}.
Proof.
  apply (dropped_line_leaves_no_trace plain_args [tick_at frame_voltage 100]
           [tick_at frame_capacitance 102] (tick_at "noise" 101)).
  - reflexivity.
  - discriminate.
Defined.

(** ** The exponent of a reading *)

(** X21: the exponent that [read] computes is between -12 and 15, so
    that [10**exponent] neither overflows nor underflows; both bounds are
    reached, by a capacitance frame with selector 0 and by a frequency
    frame with selector 15. *)
Theorem exponent_range :
  (forall (line : string) (L : UT803.locals),
      UT803.read_frame line = Ok L -> -12 <= UT803.l_exponent L <= 15) /\
  (exists L, UT803.read_frame frame_capacitance = Ok L /\
             UT803.l_exponent L = -12) /\
  (exists L, UT803.read_frame ("?12342000" ++ CRLF) = Ok L /\
             UT803.l_exponent L = 15).
Proof.
  split; [|split].
  - intros line L HL.
    destruct (read_frame_inv line L HL)
      as (c5 & c0 & f0 & f1 & f2 & _ & _ & _ & _ & _ & _ & _ & _ & _ & Hc0
          & He & _).
    rewrite He. apply exponent_of_range. apply (chrToInt_Ok c0 _ Hc0).
  - eexists. split; [vm_compute; reflexivity | reflexivity].
  - eexists. split; [vm_compute; reflexivity | reflexivity].
Qed.

Lemma exponent_range_witness :
  exists L, UT803.read_frame frame_diode = Ok L /\
            -12 <= UT803.l_exponent L <= 15.
Proof.
  destruct (UT803.read_frame frame_diode) as [L|e] eqn:E;
    [|vm_compute in E; discriminate E].
  exists L. split; [reflexivity|].
  exact (proj1 exponent_range frame_diode L E).
Defined.
